(** * FastAPIDemoCharm: a shallow embedding of [src/charm.py]

    The charm keeps one Pebble-supervised service in step with three inputs:
    database credentials delivered over a relation, the [server-port]
    configuration option and the readiness of the workload container.

    The charm object is a record; each handler is a computation in a small
    state, exception and call-log monad.  The log lists, in program order,
    every call the handler makes on its collaborators (unit status, Pebble
    container, HTTP client).  The container is the stack of Pebble layers,
    from which the plan is combined as Pebble does. *)

From Stdlib Require Import ZArith String Ascii List DecimalString DecimalPos DecimalZ.
From stdpp Require Import gmap strings list fin_maps.

Local Open Scope string_scope.
Local Open Scope Z_scope.

(** ** Python values that occur in the layer dictionaries *)

(** A field of a service dictionary: a string ("command", "override", ...),
    a string to string dictionary ("environment") or a list of strings
    ("after", "requires"). *)
Inductive value :=
| VStr (s : string)
| VMap (m : gmap string string)
| VList (l : list string).

#[global] Instance value_eq_dec : EqDecision value.
Proof. solve_decision. Defined.

(** Python truthiness, as used by [to_dict] to drop empty fields. *)
Definition truthy (v : value) : bool :=
  match v with
  | VStr s => negb (String.eqb s "")
  | VMap m => negb (bool_decide (m = ∅))
  | VList l => negb (bool_decide (l = []))
  end.

(** [str(n)] for an integer. *)
Definition str (n : Z) : string := NilZero.string_of_int (Z.to_int n).

(** [sep.join(parts)]. *)
Fixpoint join (sep : string) (parts : list string) : string :=
  match parts with
  | [] => ""
  | [p] => p
  | p :: rest => p ++ sep ++ join sep rest
  end.

(** [s.split(":")]: the pieces between the separators, never empty. *)
Fixpoint split_colon (s : string) : list string :=
  match s with
  | EmptyString => [""]
  | String c rest =>
      if Ascii.eqb c ":"%char then "" :: split_colon rest
      else match split_colon rest with
           | [] => [String c ""]
           | piece :: pieces => String c piece :: pieces
           end
  end.

(** Number of ":" characters of a string. *)
Fixpoint colons (s : string) : nat :=
  match s with
  | EmptyString => O
  | String c rest => if Ascii.eqb c ":"%char then S (colons rest) else colons rest
  end.


(** ** Pebble layers and plans *)

(** [ops.pebble.Layer]: the services are kept as the dictionaries they were
    built from. *)
Record Layer := mkLayer {
  layer_summary : string;
  layer_description : string;
  layer_services : gmap string (gmap string value);
  layer_checks : gmap string (gmap string value);
  layer_log_targets : gmap string (gmap string value);
}.

#[global] Instance Layer_eq_dec : EqDecision Layer.
Proof. solve_decision. Defined.

(** [Service.to_dict()]: the fields whose value is truthy. *)
Definition service_to_dict (svc : gmap string value) : gmap string value :=
  omap (λ v, if truthy v then Some v else None) svc.

(** The result of [Layer.to_dict()] and [Plan.to_dict()]: a key is present
    only if its value is truthy. *)
Record LayerDict := mkLayerDict {
  ld_summary : option string;
  ld_description : option string;
  ld_services : option (gmap string (gmap string value));
  ld_checks : option (gmap string (gmap string value));
  ld_log_targets : option (gmap string (gmap string value));
}.

Definition nonempty_str (s : string) : option string :=
  if String.eqb s "" then None else Some s.

Definition nonempty_map {A} (m : gmap string A) : option (gmap string A) :=
  if bool_decide (m = ∅ :> gmap string A) then None else Some m.

Definition Layer_to_dict (l : Layer) : LayerDict :=
  {| ld_summary := nonempty_str (layer_summary l);
     ld_description := nonempty_str (layer_description l);
     ld_services := nonempty_map (service_to_dict <$> layer_services l);
     ld_checks := nonempty_map (service_to_dict <$> layer_checks l);
     ld_log_targets := nonempty_map (service_to_dict <$> layer_log_targets l) |}.

(** [ops.pebble.Plan]: the services of all layers combined, next to the
    sections the charm never reads. *)
Record Plan := mkPlan {
  plan_services : gmap string (gmap string value);
  plan_checks : gmap string (gmap string value);
  plan_log_targets : gmap string (gmap string value);
}.

#[global] Instance Plan_eq_dec : EqDecision Plan.
Proof. solve_decision. Defined.

Record PlanDict := mkPlanDict {
  pd_services : option (gmap string (gmap string value));
  pd_checks : option (gmap string (gmap string value));
  pd_log_targets : option (gmap string (gmap string value));
}.

Definition Plan_to_dict (p : Plan) : PlanDict :=
  {| pd_services := nonempty_map (service_to_dict <$> plan_services p);
     pd_checks := nonempty_map (service_to_dict <$> plan_checks p);
     pd_log_targets := nonempty_map (service_to_dict <$> plan_log_targets p) |}.

(** ** How Pebble combines layers

    Pebble keeps the layers in the order they were added and goes through
    them in that order to build the plan.  An entry (a service, a check, a
    log target) of a later layer goes over the entry of the same name of
    the layers before it: it takes its place, or, if its override is
    "merge", it is merged into it field by field. *)

Definition is_merge (entry : gmap string value) : bool :=
  bool_decide (entry !! "override" = Some (VStr "merge")).

(** A field that is set goes over the old one; dictionaries are united, the
    new keys winning, and lists are appended. *)
Definition merge_value (new old : value) : value :=
  match new, old with
  | VMap n, VMap o => VMap (n ∪ o)
  | VList n, VList o => VList (o ++ n)
  | _, _ => new
  end.

Definition merge_entry (new old : gmap string value) : gmap string value :=
  merge (λ n o, match n, o with
                | Some vn, Some vo => Some (if truthy vn then merge_value vn vo else vo)
                | Some vn, None => Some vn
                | None, _ => o
                end) new old.

Definition combine_entry (new : gmap string value)
    (old : option (gmap string value)) : gmap string value :=
  match old with
  | Some o => if is_merge new then merge_entry new o else new
  | None => new
  end.

Definition combine_section (old new : gmap string (gmap string value))
  : gmap string (gmap string value) :=
  merge (λ n o, match n with
                | Some entry => Some (combine_entry entry o)
                | None => o
                end) new old.

(** Two layers combined, the second going over the first. *)
Definition combine_two (old new : Layer) : Layer :=
  {| layer_summary := layer_summary new;
     layer_description := layer_description new;
     layer_services := combine_section (layer_services old) (layer_services new);
     layer_checks := combine_section (layer_checks old) (layer_checks new);
     layer_log_targets :=
       combine_section (layer_log_targets old) (layer_log_targets new) |}.

Definition no_layer : Layer :=
  {| layer_summary := ""; layer_description := "";
     layer_services := ∅; layer_checks := ∅; layer_log_targets := ∅ |}.

Definition combine_layers (ls : list Layer) : Layer := foldl combine_two no_layer ls.

(** A layer added under a label: combined into the layer that has the label,
    where that layer stands, or put on top of the stack if none has it. *)
Fixpoint add_to_stack (label : string) (l : Layer) (ls : list (string * Layer))
  : list (string * Layer) :=
  match ls with
  | [] => [(label, l)]
  | (lb, old) :: rest =>
      if String.eqb lb label then (lb, combine_two old l) :: rest
      else (lb, old) :: add_to_stack label l rest
  end.

Definition has_label (label : string) (ls : list (string * Layer)) : bool :=
  existsb (λ p, String.eqb p.1 label) ls.

(** A layer that stands above the one labelled [label] has an entry for
    service [name].  With no layer of that label a new one goes on top, and
    nothing stands above it. *)
Fixpoint defined_above (label name : string) (ls : list (string * Layer)) : bool :=
  match ls with
  | [] => false
  | (lb, _) :: rest =>
      if String.eqb lb label
      then existsb (λ p, bool_decide (is_Some (layer_services p.2 !! name))) rest
      else defined_above label name rest
  end.

(** ** The collaborators *)

Inductive Status :=
| UnknownStatus
| ActiveStatus (message : string)
| BlockedStatus (message : string)
| MaintenanceStatus (message : string)
| WaitingStatus (message : string).

#[global] Instance Status_eq_dec : EqDecision Status.
Proof. solve_decision. Defined.

(** A JSON value as Python sees it: a [str] or something else. *)
Inductive JsonValue :=
| JString (s : string)
| JNumber (n : Z)
| JBool (b : bool)
| JNull
| JNested.

(** What [requests.get(...)] followed by [resp.json()] can give: an object
    or some other JSON value. *)
Inductive Json :=
| JObject (fields : gmap string JsonValue)
| JOther.

Inductive HttpOutcome :=
| HttpTimeout
| HttpConnectionError
| HttpMalformedBody
| HttpJson (body : Json).

(** The workload container: whether Pebble answers, and its layers, each
    under its label, the first added first. *)
Record Container := mkContainer {
  reachable : bool;
  layers : list (string * Layer);
}.

(** The plan Pebble serves for a stack of layers. *)
Definition plan (c : Container) : Plan :=
  let l := combine_layers (snd <$> layers c) in
  {| plan_services := layer_services l;
     plan_checks := layer_checks l;
     plan_log_targets := layer_log_targets l |}.

(** Exceptions, all subclasses of Python's [Exception]. *)
Inductive Exn :=
| ValueError
| KeyError (key : string)
| TypeError
| Timeout
| ConnectionError
| JSONDecodeError
| PebbleError.

(** Calls made on the collaborators. *)
Inductive Call :=
| CSetStatus (s : Status)
| CCanConnect
| CGetPlan
| CAddLayer (label : string) (layer : Layer) (combine : bool)
| CRestart (service : string)
| CGetServices (name : string)
| CSetWorkloadVersion (v : string)
| CHttpGet (url : string) (timeout : Z).

#[global] Instance Call_eq_dec : EqDecision Call.
Proof. solve_decision. Defined.

(** ** The charm *)

(** The charm object together with what the framework and the outside
    world hold for it. *)
Record FastAPIDemoCharm := mkCharm {
  app_environment : gmap string string;
  config_server_port : Z;
  container : Container;
  unit_status : Status;
  workload_version : string;
  version_endpoint : HttpOutcome;
}.

Definition pebble_service_name : string := "fastapi-service".

(** ** The handler monad *)

Inductive Result (A : Type) :=
| Ok (a : A)
| Raise (e : Exn).
Arguments Ok {A} a.
Arguments Raise {A} e.

Definition M (A : Type) : Type :=
  FastAPIDemoCharm → Result A * FastAPIDemoCharm * list Call.

Definition ret {A} (a : A) : M A := λ st, (Ok a, st, []).

Definition bind {A B} (m : M A) (k : A → M B) : M B := λ st,
  match m st with
  | (Ok a, st1, t1) =>
      match k a st1 with
      | (r, st2, t2) => (r, st2, (t1 ++ t2)%list)
      end
  | (Raise e, st1, t1) => (Raise e, st1, t1)
  end.

Definition raise {A} (e : Exn) : M A := λ st, (Raise e, st, []).

(** [try: m  except Exception as e: h e]. *)
Definition try_except {A} (m : M A) (h : Exn → M A) : M A := λ st,
  match m st with
  | (Ok a, st1, t1) => (Ok a, st1, t1)
  | (Raise e, st1, t1) =>
      match h e st1 with
      | (r, st2, t2) => (r, st2, (t1 ++ t2)%list)
      end
  end.

Definition get : M FastAPIDemoCharm := λ st, (Ok st, st, []).
Definition put (st : FastAPIDemoCharm) : M unit := λ _, (Ok tt, st, []).
Definition call (c : Call) : M unit := λ st, (Ok tt, st, [c]).

Notation "x ← m ; k" := (bind m (λ x, k))
  (at level 20, m at level 100, k at level 200, only parsing).
Notation "m ;; k" := (bind m (λ _, k))
  (at level 100, k at level 200, right associativity, only parsing).

Definition result_of {A} (r : Result A * FastAPIDemoCharm * list Call) : Result A :=
  r.1.1.
Definition state_of {A} (r : Result A * FastAPIDemoCharm * list Call) : FastAPIDemoCharm :=
  r.1.2.
Definition calls_of {A} (r : Result A * FastAPIDemoCharm * list Call) : list Call :=
  r.2.

(** ** Field updates of the charm record *)

Definition with_app_environment (env : gmap string string) (st : FastAPIDemoCharm) :=
  {| app_environment := env;
     config_server_port := config_server_port st;
     container := container st;
     unit_status := unit_status st;
     workload_version := workload_version st;
     version_endpoint := version_endpoint st |}.

Definition with_config (port : Z) (st : FastAPIDemoCharm) :=
  {| app_environment := app_environment st;
     config_server_port := port;
     container := container st;
     unit_status := unit_status st;
     workload_version := workload_version st;
     version_endpoint := version_endpoint st |}.

Definition with_container (c : Container) (st : FastAPIDemoCharm) :=
  {| app_environment := app_environment st;
     config_server_port := config_server_port st;
     container := c;
     unit_status := unit_status st;
     workload_version := workload_version st;
     version_endpoint := version_endpoint st |}.

Definition with_status (s : Status) (st : FastAPIDemoCharm) :=
  {| app_environment := app_environment st;
     config_server_port := config_server_port st;
     container := container st;
     unit_status := s;
     workload_version := workload_version st;
     version_endpoint := version_endpoint st |}.

Definition with_workload_version (v : string) (st : FastAPIDemoCharm) :=
  {| app_environment := app_environment st;
     config_server_port := config_server_port st;
     container := container st;
     unit_status := unit_status st;
     workload_version := v;
     version_endpoint := version_endpoint st |}.

Definition with_endpoint (h : HttpOutcome) (st : FastAPIDemoCharm) :=
  {| app_environment := app_environment st;
     config_server_port := config_server_port st;
     container := container st;
     unit_status := unit_status st;
     workload_version := workload_version st;
     version_endpoint := h |}.

(** ** Calls on the collaborators

    The unit, the Pebble container and the HTTP client belong to the
    framework and the outside world.  Each call is entered in the log; a
    call on the container answers from the [Container] record.  Pebble
    calls on a container in reach are taken to go through: the failures of
    the Pebble API itself are not part of this development. *)

(** [self.unit.status = s]. *)
Definition set_status (s : Status) : M unit :=
  st ← get; put (with_status s st);; call (CSetStatus s).

(** [self.unit.set_workload_version(v)]: anything but a [str] is refused
    with [TypeError] before a version is reported. *)
Definition set_workload_version (v : JsonValue) : M unit :=
  match v with
  | JString s =>
      st ← get; put (with_workload_version s st);; call (CSetWorkloadVersion s)
  | _ => raise TypeError
  end.

(** [self.container.can_connect()]. *)
Definition can_connect : M bool :=
  st ← get; call CCanConnect;; ret (reachable (container st)).

(** [self.container.get_plan()]. *)
Definition get_plan : M Plan :=
  st ← get; call CGetPlan;; ret (plan (container st)).

(** [self.container.add_layer(label, layer, combine=combine)].  Without
    [combine] Pebble refuses a label that is already taken. *)
Definition add_layer (label : string) (l : Layer) (combine : bool) : M unit :=
  st ← get;
  call (CAddLayer label l combine);;
  if negb combine && has_label label (layers (container st))
  then raise PebbleError
  else put (with_container
              {| reachable := reachable (container st);
                 layers := add_to_stack label l (layers (container st)) |} st).

(** [self.container.restart(name)]. *)
Definition restart (name : string) : M unit := call (CRestart name).

(** [self.container.get_services(name)]: the services of that name that the
    plan has, as a dictionary. *)
Definition get_services (name : string) : M (gmap string (gmap string value)) :=
  st ← get;
  call (CGetServices name);;
  ret match plan_services (plan (container st)) !! name with
      | Some svc => {[ name := svc ]}
      | None => ∅
      end.

(** [requests.get(url, timeout=timeout)] followed by [resp.json()]. *)
Definition requests_get_json (url : string) (timeout : Z) : M Json :=
  st ← get;
  call (CHttpGet url timeout);;
  match version_endpoint st with
  | HttpTimeout => raise Timeout
  | HttpConnectionError => raise ConnectionError
  | HttpMalformedBody => raise JSONDecodeError
  | HttpJson body => ret body
  end.

(** [body[key]]. *)
Definition json_getitem (body : Json) (key : string) : M JsonValue :=
  match body with
  | JObject fields =>
      match fields !! key with
      | Some v => ret v
      | None => raise (KeyError key)
      end
  | JOther => raise TypeError
  end.

(** [d["services"]] on the result of [Layer.to_dict()]. *)
Definition getitem_services (d : LayerDict) : M (gmap string (gmap string value)) :=
  match ld_services d with
  | Some s => ret s
  | None => raise (KeyError "services")
  end.

(** ** The methods of the charm *)

(** What [_pebble_layer] builds from the environment and the port. *)
Definition pebble_layer_of (env : gmap string string) (port : Z) : Layer :=
  let command :=
    join " " ["uvicorn"; "api_demo_server.app:app"; "--host=0.0.0.0";
              "--port=" ++ str port] in
  {| layer_summary := "FastAPI demo service";
     layer_description := "pebble config layer for FastAPI demo server";
     layer_services :=
       {[ pebble_service_name :=
            <[ "override" := VStr "replace" ]>
            (<[ "summary" := VStr "fastapi demo" ]>
            (<[ "command" := VStr command ]>
            (<[ "startup" := VStr "enabled" ]>
            (<[ "environment" := VMap env ]> ∅)))) ]};
     layer_checks := ∅;
     layer_log_targets := ∅ |}.

Definition _pebble_layer : M Layer :=
  st ← get; ret (pebble_layer_of (app_environment st) (config_server_port st)).

(** The annotation promises a [str]; what is returned is whatever the JSON
    object holds under "version". *)
Definition _request_version : M JsonValue :=
  st ← get;
  body ← requests_get_json
           ("http://localhost:" ++ str (config_server_port st) ++ "/version") 10;
  json_getitem body "version".

Definition version : M JsonValue :=
  c ← can_connect;
  if c then
    svcs ← get_services pebble_service_name;
    if bool_decide (svcs ≠ ∅) then
      try_except _request_version (λ _, ret (JString ""))
    else ret (JString "")
  else ret (JString "").

Definition _update_layer_and_restart : M unit :=
  set_status (MaintenanceStatus "Assembling pod spec");;
  c ← can_connect;
  if c then
    l ← _pebble_layer;
    let new_layer := Layer_to_dict l in
    p ← get_plan;
    let services := default ∅ (pd_services (Plan_to_dict p)) in
    wanted ← getitem_services new_layer;
    (if bool_decide (services ≠ wanted) then
       l' ← _pebble_layer;
       add_layer "fastapi_demo" l' true;;
       restart pebble_service_name
     else ret tt);;
    v ← version;
    set_workload_version v;;
    set_status (ActiveStatus "")
  else
    set_status (WaitingStatus "Waiting for Pebble in workload container").

(** The event of the database library, with the fields the handler reads,
    as the strings the relation data holds.  The library gives each of them
    as an optional string; an event that comes without one of them is not
    covered here. *)
Record DatabaseCreatedEvent := mkDatabaseCreatedEvent {
  endpoints : string;
  username : string;
  password : string;
}.

(** [host, port = parts]. *)
Definition unpack2 (parts : list string) : M (string * string) :=
  match parts with
  | [host; port] => ret (host, port)
  | _ => raise ValueError
  end.

Definition credentials (host port user pass : string) : gmap string string :=
  <[ "DEMO_SERVER_DB_HOST" := host ]>
  (<[ "DEMO_SERVER_DB_PORT" := port ]>
  (<[ "DEMO_SERVER_DB_USER" := user ]>
  (<[ "DEMO_SERVER_DB_PASSWORD" := pass ]> ∅))).

Definition _on_database_created (event : DatabaseCreatedEvent) : M unit :=
  hp ← unpack2 (split_colon (endpoints event));
  st ← get;
  put (with_app_environment
         (credentials hp.1 hp.2 (username event) (password event)) st);;
  _update_layer_and_restart.

Definition _on_database_relation_removed : M unit :=
  st ← get;
  put (with_app_environment ∅ st);;
  set_status (WaitingStatus "Waiting for database relation").

Definition _on_config_changed : M unit :=
  st ← get;
  let port := config_server_port st in
  if Z.eqb port 22 then
    set_status (BlockedStatus "invalid port number, 22 is reserved for SSH")
  else _update_layer_and_restart.

(** ** The framework *)

(** [__init__] on a new unit: the charm starts without credentials. *)
Definition init (port : Z) (c : Container) (h : HttpOutcome) : FastAPIDemoCharm :=
  {| app_environment := ∅;
     config_server_port := port;
     container := c;
     unit_status := UnknownStatus;
     workload_version := "";
     version_endpoint := h |}.

(** The events observed in [__init__]. *)
Inductive Event :=
| database_created (event : DatabaseCreatedEvent)
| endpoints_changed (event : DatabaseCreatedEvent)
| database_relation_broken
| demo_server_pebble_ready
| config_changed.

Definition emit (e : Event) : M unit :=
  match e with
  | database_created event => _on_database_created event
  | endpoints_changed event => _on_database_created event
  | database_relation_broken => _on_database_relation_removed
  | demo_server_pebble_ready => _update_layer_and_restart
  | config_changed => _on_config_changed
  end.

(** [main(FastAPIDemoCharm)] builds the charm anew: [__init__] runs again
    on the unit as it is, and the stored environment starts empty. *)
Definition rebuild (st : FastAPIDemoCharm) : FastAPIDemoCharm :=
  with_app_environment ∅ st.


(** One step of the life of the charm: an event is handled by the charm
    object at hand, the charm is built anew, the operator sets the port
    option, or the container and the version endpoint change on their
    own. *)
Inductive step : FastAPIDemoCharm → FastAPIDemoCharm → Prop :=
| step_emit e st : step st (state_of (emit e st))
| step_rebuild st : step st (rebuild st)
| step_config port st : step st (with_config port st)
| step_container c st : step st (with_container c st)
| step_endpoint h st : step st (with_endpoint h st).

Inductive reachable_from (st0 : FastAPIDemoCharm) : FastAPIDemoCharm → Prop :=
| reach_refl : reachable_from st0 st0
| reach_step st st' : reachable_from st0 st → step st st' → reachable_from st0 st'.

(** ** Reading the call log *)

Definition is_apply (c : Call) : bool :=
  match c with CAddLayer _ _ _ => true | _ => false end.
Definition is_restart (c : Call) : bool :=
  match c with CRestart _ => true | _ => false end.

Definition applies (t : list Call) : nat := length (filter is_apply t).
Definition restarts (t : list Call) : nat := length (filter is_restart t).

(** The services subtrees that [_update_layer_and_restart] compares. *)
Definition fetched_services (st : FastAPIDemoCharm) : gmap string (gmap string value) :=
  default ∅ (pd_services (Plan_to_dict (plan (container st)))).
Definition wanted_services (st : FastAPIDemoCharm) : gmap string (gmap string value) :=
  service_to_dict <$>
    layer_services (pebble_layer_of (app_environment st) (config_server_port st)).

Ltac run :=
  cbv beta iota zeta delta
    [_update_layer_and_restart _on_config_changed _on_database_created
     _on_database_relation_removed _pebble_layer _request_version version
     bind ret raise try_except get put call set_status set_workload_version
     can_connect get_plan add_layer restart get_services requests_get_json
     getitem_services];
  cbn [with_status with_container with_app_environment with_workload_version
       with_config with_endpoint
       app_environment config_server_port container unit_status
       workload_version version_endpoint reachable layers app negb andb].

(** What the version probe yields for each answer of the endpoint. *)
Definition probe_value (h : HttpOutcome) : JsonValue :=
  match h with
  | HttpJson (JObject fields) => default (JString "") (fields !! "version")
  | _ => JString ""
  end.

(** The request, the decoding of the body or the lookup of "version"
    fails. *)
Definition probe_fails (h : HttpOutcome) : Prop :=
  match h with
  | HttpJson (JObject fields) => fields !! "version" = None
  | _ => True
  end.

Definition has_service (st : FastAPIDemoCharm) : bool :=
  bool_decide (is_Some (plan_services (plan (container st)) !! pebble_service_name)).

Definition version_url (st : FastAPIDemoCharm) : string :=
  "http://localhost:" ++ str (config_server_port st) ++ "/version".

Definition version_value (st : FastAPIDemoCharm) : JsonValue :=
  if reachable (container st) && has_service st
  then probe_value (version_endpoint st) else JString "".

Definition version_calls (st : FastAPIDemoCharm) : list Call :=
  CCanConnect ::
  (if reachable (container st)
   then CGetServices pebble_service_name ::
        (if has_service st then [CHttpGet (version_url st) 10] else [])
   else []).

(** ** Running the reconciliation *)

Definition desired (st : FastAPIDemoCharm) : Layer :=
  pebble_layer_of (app_environment st) (config_server_port st).

Definition needs_apply (st : FastAPIDemoCharm) : bool :=
  bool_decide (fetched_services st ≠ wanted_services st).

Definition apply_calls (st : FastAPIDemoCharm) : list Call :=
  if needs_apply st
  then [CAddLayer "fastapi_demo" (desired st) true; CRestart pebble_service_name]
  else [].

(** The container once the layer is added under the charm's label. *)
Definition added (st : FastAPIDemoCharm) : Container :=
  {| reachable := reachable (container st);
     layers := add_to_stack "fastapi_demo" (desired st) (layers (container st)) |}.

Definition applied (st : FastAPIDemoCharm) : FastAPIDemoCharm :=
  if needs_apply st then with_container (added st) st else st.

Definition maintenance : Status := MaintenanceStatus "Assembling pod spec".
Definition waiting_for_pebble : Status :=
  WaitingStatus "Waiting for Pebble in workload container".

(** The plan holds no service but the one the charm manages. *)
Definition only_managed (st : FastAPIDemoCharm) : Prop :=
  dom (plan_services (plan (container st))) ⊆ ({[ pebble_service_name ]} : gset string).

(** No layer above the charm's own has an entry for the managed service, so
    that what the charm's layer says about it is what the plan shows. *)
Definition charm_layer_on_top (st : FastAPIDemoCharm) : Prop :=
  defined_above "fastapi_demo" pebble_service_name (layers (container st)) = false.

(** ** Sample plans, events and states *)

(** A layer of another owner with a service of its own. *)
Definition sidecar_layer : Layer :=
  {| layer_summary := "sidecar"; layer_description := "";
     layer_services :=
       {[ "sidecar" := <[ "override" := VStr "replace" ]>
                       (<[ "command" := VStr "sleep infinity" ]> ∅) ]};
     layer_checks := ∅; layer_log_targets := ∅ |}.

Definition st_sidecar : FastAPIDemoCharm :=
  init 8000 {| reachable := true; layers := [("sidecar", sidecar_layer)] |}
       HttpConnectionError.

(** The charm's layer as built for no credentials and port 8000, while the
    port option says 8080. *)
Definition stale_layers : list (string * Layer) :=
  [("fastapi_demo", pebble_layer_of ∅ 8000)].

Definition st_stale : FastAPIDemoCharm :=
  init 8080 {| reachable := true; layers := stale_layers |} HttpConnectionError.

(** A layer added after the charm's, with another command for the managed
    service. *)
Definition shadow_layer : Layer :=
  {| layer_summary := "by hand"; layer_description := "";
     layer_services :=
       {[ pebble_service_name := <[ "override" := VStr "replace" ]>
                                 (<[ "command" := VStr "other" ]> ∅) ]};
     layer_checks := ∅; layer_log_targets := ∅ |}.

Definition st_shadowed : FastAPIDemoCharm :=
  init 8000 {| reachable := true;
               layers := [("fastapi_demo", pebble_layer_of ∅ 8000);
                          ("by-hand", shadow_layer)] |}
       HttpConnectionError.

(** ** Further readings of logs and states *)

(** The apply and restart calls of a log, in order. *)
Definition pebble_writes (t : list Call) : list Call :=
  filter (λ c, is_apply c || is_restart c) t.

Definition blocked_ssh : Status :=
  BlockedStatus "invalid port number, 22 is reserved for SSH".

Definition st_ssh : FastAPIDemoCharm :=
  mkCharm (credentials "10.0.0.5" "5432" "alice" "s3cr3t") 22
          {| reachable := true; layers := stale_layers |}
          (ActiveStatus "") "1.0.0" HttpTimeout.

Definition waiting_for_database : Status :=
  WaitingStatus "Waiting for database relation".


Definition two_endpoints : DatabaseCreatedEvent :=
  mkDatabaseCreatedEvent "10.0.0.5:5432,10.0.0.6:5432" "alice" "s3cr3t".
Definition one_endpoint : DatabaseCreatedEvent :=
  mkDatabaseCreatedEvent "10.0.0.5:5432" "alice" "s3cr3t".

Definition service_field (field : string) (l : Layer) : option value :=
  layer_services l !! pebble_service_name ≫= (λ svc, svc !! field).

Definition up_container : Container := {| reachable := true; layers := stale_layers |}.

(** A unit that served version 1.0.0 and whose container then went away. *)
Definition st_served : FastAPIDemoCharm :=
  state_of (emit demo_server_pebble_ready
              (init 8000 up_container
                 (HttpJson (JObject {[ "version" := JString "1.0.0" ]})))).

Definition st_down : FastAPIDemoCharm :=
  with_container {| reachable := false; layers := layers (container st_served) |}
    st_served.

Definition st_garbled : FastAPIDemoCharm :=
  init 8080 up_container HttpMalformedBody.




(** The statuses written by a log, in order. *)
Definition statuses (t : list Call) : list Status :=
  omap (λ c, match c with CSetStatus s => Some s | _ => None end) t.

(** ** Readings used for the handlers as a whole *)

Definition is_http (c : Call) : bool :=
  match c with CHttpGet _ _ => true | _ => false end.

(** The requests to the version endpoint of a log, in order. *)
Definition http_gets (t : list Call) : list Call := filter is_http t.

(** The managed service as the fetched plan shows it. *)
Definition fetched_managed (st : FastAPIDemoCharm) : option (gmap string value) :=
  fetched_services st !! pebble_service_name.

(** The services subtree of the layer built for an environment and a port. *)
Definition services_for (env : gmap string string) (port : Z)
  : gmap string (gmap string value) :=
  service_to_dict <$> layer_services (pebble_layer_of env port).

(** A unit blocked on port 22 whose operator then picks port 8080. *)
Definition st_unblocked : FastAPIDemoCharm :=
  with_config 8080 (state_of (emit config_changed st_ssh)).

(** A fresh unit in front of an empty plan. *)
Definition st_fresh : FastAPIDemoCharm :=
  init 8000 {| reachable := true; layers := [] |}
       (HttpJson (JObject {[ "version" := JString "1.0.0" ]})).

(** A field of the managed service as the fetched plan shows it. *)
Definition managed_field (field : string) (st : FastAPIDemoCharm) : option value :=
  fetched_managed st ≫= (λ d, d !! field).

(** The command the charm builds for a port. *)
Definition command_for (port : Z) : string :=
  "uvicorn api_demo_server.app:app --host=0.0.0.0 --port=" ++ str port.

(** A workload whose version endpoint answers with a number for "version". *)
Definition st_numbered : FastAPIDemoCharm :=
  init 8000 up_container (HttpJson (JObject {[ "version" := JNumber 2 ]})).



(** What the layers so far say about one entry, after one more layer. *)
Definition entry_step (sect : Layer → gmap string (gmap string value)) (name : string)
    (acc : option (gmap string value)) (l : Layer) : option (gmap string value) :=
  match sect l !! name with
  | Some entry => Some (combine_entry entry acc)
  | None => acc
  end.

(** A section of a layer, as [combine_two] treats it. *)
Definition section_of (sect : Layer → gmap string (gmap string value)) : Prop :=
  ∀ a b, sect (combine_two a b) = combine_section (sect a) (sect b).

(** The calls of a reconciliation of a workload in reach, up to the report
    of the version. *)
Definition reconcile_prefix (st : FastAPIDemoCharm) : list Call :=
  ([CSetStatus maintenance; CCanConnect; CGetPlan] ++ apply_calls st
     ++ version_calls (applied st))%list.

(** The version a reconciliation gets to report is a [str]. *)
Definition reports_str (st : FastAPIDemoCharm) : bool :=
  match version_value (applied st) with JString _ => true | _ => false end.

(** The service dictionary [_pebble_layer] builds. *)
Definition built_service (env : gmap string string) (port : Z) : gmap string value :=
  <[ "override" := VStr "replace" ]>
  (<[ "summary" := VStr "fastapi demo" ]>
  (<[ "command" :=
        VStr (join " " ["uvicorn"; "api_demo_server.app:app"; "--host=0.0.0.0";
                        "--port=" ++ str port]) ]>
  (<[ "startup" := VStr "enabled" ]>
  (<[ "environment" := VMap env ]> ∅)))).

(** What ends a reconciliation of a workload in reach: the report of the
    version and the Active status, or nothing if the report is refused. *)
Definition reconcile_suffix (st : FastAPIDemoCharm) : list Call :=
  match version_value (applied st) with
  | JString s => [CSetWorkloadVersion s; CSetStatus (ActiveStatus "")]
  | _ => []
  end.

(** Case analysis on a run of the reconciliation, given its two equations. *)
Ltac reconcile_cases up down st Hr :=
  destruct (reachable (container st)) eqn:Hr;
  [ rewrite (up st Hr); unfold reports_str, reconcile_suffix;
    destruct (version_value (applied st))
  | rewrite (down st Hr) ].

(** The statuses written by a reconciliation. *)
Definition reconcile_statuses (st : FastAPIDemoCharm) : list Status :=
  if reachable (container st)
  then (if reports_str st then [maintenance; ActiveStatus ""] else [maintenance])
  else [maintenance; waiting_for_pebble].

(** * Properties *)

(** ** The layer stack *)

Lemma lookup_combine_section old new k :
  combine_section old new !! k
  = match new !! k with
    | Some entry => Some (combine_entry entry (old !! k))
    | None => old !! k
    end.
Proof.
  unfold combine_section. rewrite lookup_merge.
  by destruct (new !! k), (old !! k).
Qed.

Lemma services_section : section_of layer_services.
Proof. by intros a b. Qed.

Lemma checks_section : section_of layer_checks.
Proof. by intros a b. Qed.

Lemma log_targets_section : section_of layer_log_targets.
Proof. by intros a b. Qed.

Lemma lookup_foldl_combine sect (Hsect : section_of sect) ls acc k :
  sect (foldl combine_two acc ls) !! k = foldl (entry_step sect k) (sect acc !! k) ls.
Proof.
  revert acc. induction ls as [|l ls IH]; intros acc; [done|].
  cbn [foldl]. rewrite IH, Hsect, lookup_combine_section. reflexivity.
Qed.

Lemma lookup_combine_layers sect (Hsect : section_of sect) ls k :
  sect no_layer = ∅ →
  sect (combine_layers ls) !! k = foldl (entry_step sect k) None ls.
Proof.
  intros He. unfold combine_layers.
  by rewrite (lookup_foldl_combine sect Hsect), He, lookup_empty.
Qed.

(** A layer without an entry of some name leaves that entry of the plan as
    it is, wherever the layer goes in the stack. *)
Lemma stack_other sect (Hsect : section_of sect) label new ls acc k :
  sect new !! k = None →
  foldl (entry_step sect k) acc (snd <$> add_to_stack label new ls)
  = foldl (entry_step sect k) acc (snd <$> ls).
Proof.
  intros Hnone. revert acc. induction ls as [|[lb old] ls IH]; intros acc.
  - cbn. unfold entry_step. by rewrite Hnone.
  - cbn [add_to_stack]. destruct (String.eqb lb label).
    + cbn. f_equal. unfold entry_step.
      by rewrite Hsect, lookup_combine_section, Hnone.
    + cbn. apply IH.
Qed.

Lemma combine_entry_replace entry old : is_merge entry = false → combine_entry entry old = entry.
Proof. intros H. unfold combine_entry. destruct old; by rewrite ?H. Qed.

Lemma foldl_undefined k rest acc :
  existsb (λ p : string * Layer, bool_decide (is_Some (layer_services p.2 !! k))) rest
  = false →
  foldl (entry_step layer_services k) acc (snd <$> rest) = acc.
Proof.
  revert acc. induction rest as [|[lb l] rest IH]; intros acc H; [done|].
  cbn in H. apply orb_false_iff in H as [Hl Hrest].
  cbn. rewrite IH by done. unfold entry_step.
  apply bool_decide_eq_false_1 in Hl.
  destruct (layer_services l !! k); [|done]. destruct Hl. eauto.
Qed.

(** A replacing entry of the added layer is what the plan shows, unless a
    layer above has an entry of that name. *)
Lemma stack_top label new ls acc k entry :
  layer_services new !! k = Some entry →
  is_merge entry = false →
  defined_above label k ls = false →
  foldl (entry_step layer_services k) acc (snd <$> add_to_stack label new ls)
  = Some entry.
Proof.
  intros Hnew Hrep. revert acc. induction ls as [|[lb old] ls IH]; intros acc Habove.
  - cbn. unfold entry_step. by rewrite Hnew, combine_entry_replace.
  - cbn [add_to_stack defined_above] in *. destruct (String.eqb lb label).
    + cbn. rewrite foldl_undefined by done. unfold entry_step.
      rewrite services_section, lookup_combine_section, Hnew.
      rewrite (combine_entry_replace entry (layer_services old !! k)) by done.
      by rewrite combine_entry_replace.
    + cbn. by apply IH.
Qed.

Lemma foldl_entry_is_Some sect k ls acc :
  is_Some acc → is_Some (foldl (entry_step sect k) acc ls).
Proof.
  revert acc. induction ls as [|l ls IH]; intros acc Hacc; [done|].
  cbn. apply IH. unfold entry_step. destruct (sect l !! k); eauto.
Qed.

(** An entry the plan does not have is in no layer. *)
Lemma undefined_everywhere k (ls : list (string * Layer)) :
  foldl (entry_step layer_services k) None (snd <$> ls) = None →
  existsb (λ p : string * Layer, bool_decide (is_Some (layer_services p.2 !! k))) ls
  = false.
Proof.
  induction ls as [|[lb l] ls IH]; [done|].
  cbn. unfold entry_step at 2. intros H.
  destruct (layer_services l !! k) as [entry|] eqn:Hl.
  - pose proof (foldl_entry_is_Some layer_services k (snd <$> ls)
                  (Some (combine_entry entry None)) (ltac:(eauto))) as [x Hx].
    rewrite Hx in H. discriminate.
  - rewrite bool_decide_eq_false_2 by (intros [? ?]; discriminate).
    by apply IH.
Qed.

Lemma defined_above_of_nowhere label k ls :
  existsb (λ p : string * Layer, bool_decide (is_Some (layer_services p.2 !! k))) ls
  = false →
  defined_above label k ls = false.
Proof.
  induction ls as [|[lb l] ls IH]; [done|].
  cbn. intros H. apply orb_false_iff in H as [_ Hrest].
  destruct (String.eqb lb label); [done | by apply IH].
Qed.

Lemma plan_services_lookup c k :
  plan_services (plan c) !! k = foldl (entry_step layer_services k) None (snd <$> layers c).
Proof. apply (lookup_combine_layers layer_services services_section). reflexivity. Qed.

Lemma plan_checks_lookup c k :
  plan_checks (plan c) !! k = foldl (entry_step layer_checks k) None (snd <$> layers c).
Proof. apply (lookup_combine_layers layer_checks checks_section). reflexivity. Qed.

Lemma plan_log_targets_lookup c k :
  plan_log_targets (plan c) !! k
  = foldl (entry_step layer_log_targets k) None (snd <$> layers c).
Proof. apply (lookup_combine_layers layer_log_targets log_targets_section). reflexivity. Qed.

(** ** Running the primitives *)

Lemma wanted_nonempty env port :
  ld_services (Layer_to_dict (pebble_layer_of env port))
  = Some (service_to_dict <$> layer_services (pebble_layer_of env port)).
Proof.
  unfold Layer_to_dict, pebble_layer_of, nonempty_map; cbn [ld_services layer_services].
  rewrite map_fmap_singleton.
  rewrite bool_decide_eq_false_2; [done|].
  apply map_non_empty_singleton.
Qed.

Lemma request_version_run st :
  _request_version st
  = (match version_endpoint st with
     | HttpTimeout => Raise Timeout
     | HttpConnectionError => Raise ConnectionError
     | HttpMalformedBody => Raise JSONDecodeError
     | HttpJson JOther => Raise TypeError
     | HttpJson (JObject fields) =>
         match fields !! "version" with
         | Some v => Ok v
         | None => Raise (KeyError "version")
         end
     end, st, [CHttpGet (version_url st) 10]).
Proof.
  run. unfold version_url.
  destruct (version_endpoint st) as [| | |[fields|]]; run; try reflexivity.
  unfold json_getitem. destruct (fields !! "version"); reflexivity.
Qed.

Lemma version_run st :
  version st = (Ok (version_value st), st, version_calls st).
Proof.
  unfold version_value, version_calls, has_service.
  cbv beta iota zeta delta [version bind ret get call can_connect get_services try_except].
  destruct (reachable (container st)); [|reflexivity].
  cbn [andb].
  destruct (plan_services (plan (container st)) !! pebble_service_name) as [svc|] eqn:Hsvc.
  - rewrite bool_decide_eq_true_2 by apply map_non_empty_singleton.
    rewrite (bool_decide_eq_true_2 (is_Some (Some svc))) by eauto.
    rewrite request_version_run. unfold probe_value.
    destruct (version_endpoint st) as [| | |[fields|]]; try reflexivity.
    destruct (fields !! "version"); reflexivity.
  - rewrite bool_decide_eq_false_2 by (intros H; by apply H).
    rewrite (bool_decide_eq_false_2 (is_Some None)) by (intros [? ?]; discriminate).
    reflexivity.
Qed.

(** ** Running the reconciliation *)

Lemma reconcile_unreachable st :
  reachable (container st) = false →
  _update_layer_and_restart st
  = (Ok tt, with_status waiting_for_pebble st,
     [CSetStatus maintenance; CCanConnect; CSetStatus waiting_for_pebble]).
Proof. intros Hr. run. rewrite Hr. reflexivity. Qed.

Lemma reconcile_reachable st :
  reachable (container st) = true →
  _update_layer_and_restart st
  = match version_value (applied st) with
    | JString s =>
        (Ok tt,
         with_status (ActiveStatus "") (with_workload_version s (applied st)),
         (reconcile_prefix st
            ++ [CSetWorkloadVersion s; CSetStatus (ActiveStatus "")])%list)
    | _ => (Raise TypeError, with_status maintenance (applied st), reconcile_prefix st)
    end.
Proof.
  intros Hr.
  cbv beta iota zeta delta
    [_update_layer_and_restart _pebble_layer bind ret get put call set_status
     can_connect get_plan add_layer restart getitem_services].
  cbn [with_status container reachable layers app_environment config_server_port
       negb andb].
  rewrite Hr, wanted_nonempty.
  unfold reconcile_prefix, applied, apply_calls, needs_apply, fetched_services,
    wanted_services, desired, added.
  destruct (bool_decide _) eqn:Hd; rewrite version_run;
    match goal with
    | |- context [match version_value ?x with _ => _ end] =>
        match goal with
        | |- context [set_workload_version ?v] =>
            change v with (version_value x); destruct (version_value x)
        end
    end;
    cbv beta iota zeta delta [set_workload_version bind ret get put call raise];
    cbn [with_status with_container with_workload_version
         app_environment config_server_port container unit_status
         workload_version version_endpoint reachable layers app];
    rewrite ?app_nil_r, <- ?app_assoc; reflexivity.
Qed.

Lemma reconcile_result st :
  result_of (_update_layer_and_restart st)
  = if reachable (container st) && negb (reports_str st)
    then Raise TypeError else Ok tt.
Proof. reconcile_cases reconcile_reachable reconcile_unreachable st Hr; reflexivity. Qed.

Lemma reconcile_calls st :
  calls_of (_update_layer_and_restart st)
  = if reachable (container st)
    then (reconcile_prefix st ++ reconcile_suffix st)%list
    else [CSetStatus maintenance; CCanConnect; CSetStatus waiting_for_pebble].
Proof.
  reconcile_cases reconcile_reachable reconcile_unreachable st Hr; unfold calls_of; cbn [snd]; by rewrite ?app_nil_r.
Qed.

Lemma reconcile_container st :
  container (state_of (_update_layer_and_restart st))
  = if reachable (container st) && needs_apply st then added st else container st.
Proof.
  reconcile_cases reconcile_reachable reconcile_unreachable st Hr; unfold applied; by destruct (needs_apply st).
Qed.

Lemma reconcile_app_environment st :
  app_environment (state_of (_update_layer_and_restart st)) = app_environment st.
Proof.
  reconcile_cases reconcile_reachable reconcile_unreachable st Hr; unfold applied; by destruct (needs_apply st).
Qed.

Lemma reconcile_config st :
  config_server_port (state_of (_update_layer_and_restart st)) = config_server_port st.
Proof.
  reconcile_cases reconcile_reachable reconcile_unreachable st Hr; unfold applied; by destruct (needs_apply st).
Qed.

Lemma reconcile_endpoint st :
  version_endpoint (state_of (_update_layer_and_restart st)) = version_endpoint st.
Proof.
  reconcile_cases reconcile_reachable reconcile_unreachable st Hr; unfold applied; by destruct (needs_apply st).
Qed.

Lemma reconcile_status st :
  unit_status (state_of (_update_layer_and_restart st))
  = if reachable (container st)
    then (if reports_str st then ActiveStatus "" else maintenance)
    else waiting_for_pebble.
Proof. reconcile_cases reconcile_reachable reconcile_unreachable st Hr; reflexivity. Qed.

Lemma reconcile_reachable_flag st :
  reachable (container (state_of (_update_layer_and_restart st)))
  = reachable (container st).
Proof.
  rewrite reconcile_container.
  by destruct (reachable (container st) && needs_apply st).
Qed.

Lemma reconcile_desired st :
  desired (state_of (_update_layer_and_restart st)) = desired st.
Proof. unfold desired. by rewrite reconcile_app_environment, reconcile_config. Qed.

(** ** Reading the log of a reconciliation *)

Lemma applies_app t1 t2 : applies (t1 ++ t2) = (applies t1 + applies t2)%nat.
Proof. unfold applies. by rewrite filter_app, length_app. Qed.

Lemma restarts_app t1 t2 : restarts (t1 ++ t2) = (restarts t1 + restarts t2)%nat.
Proof. unfold restarts. by rewrite filter_app, length_app. Qed.

Lemma pebble_writes_app t1 t2 :
  pebble_writes (t1 ++ t2) = (pebble_writes t1 ++ pebble_writes t2)%list.
Proof. apply filter_app. Qed.

Lemma pebble_writes_version_calls st : pebble_writes (version_calls st) = [].
Proof.
  unfold version_calls.
  destruct (reachable (container st)), (has_service st); reflexivity.
Qed.

Lemma pebble_writes_suffix st : pebble_writes (reconcile_suffix st) = [].
Proof. unfold reconcile_suffix. by destruct (version_value (applied st)). Qed.

Lemma pebble_writes_reconcile st :
  pebble_writes (calls_of (_update_layer_and_restart st))
  = if reachable (container st) then apply_calls st else [].
Proof.
  rewrite reconcile_calls. destruct (reachable (container st)); [|done].
  unfold reconcile_prefix.
  rewrite !pebble_writes_app, pebble_writes_version_calls, pebble_writes_suffix.
  unfold apply_calls. by destruct (needs_apply st).
Qed.

Lemma applies_version_calls st : applies (version_calls st) = 0%nat.
Proof.
  unfold version_calls.
  destruct (reachable (container st)), (has_service st); reflexivity.
Qed.

Lemma restarts_version_calls st : restarts (version_calls st) = 0%nat.
Proof.
  unfold version_calls.
  destruct (reachable (container st)), (has_service st); reflexivity.
Qed.

Lemma applies_suffix st : applies (reconcile_suffix st) = 0%nat.
Proof. unfold reconcile_suffix. by destruct (version_value (applied st)). Qed.

Lemma restarts_suffix st : restarts (reconcile_suffix st) = 0%nat.
Proof. unfold reconcile_suffix. by destruct (version_value (applied st)). Qed.

Lemma applies_reconcile st :
  applies (calls_of (_update_layer_and_restart st))
  = if reachable (container st) && needs_apply st then 1%nat else 0%nat.
Proof.
  rewrite reconcile_calls. destruct (reachable (container st)); [|done].
  unfold reconcile_prefix.
  rewrite !applies_app, applies_version_calls, applies_suffix.
  unfold apply_calls. by destruct (needs_apply st).
Qed.

Lemma restarts_reconcile st :
  restarts (calls_of (_update_layer_and_restart st))
  = if reachable (container st) && needs_apply st then 1%nat else 0%nat.
Proof.
  rewrite reconcile_calls. destruct (reachable (container st)); [|done].
  unfold reconcile_prefix.
  rewrite !restarts_app, restarts_version_calls, restarts_suffix.
  unfold apply_calls. by destruct (needs_apply st).
Qed.

(** ** The plan after the charm's layer is added *)

Lemma desired_services st :
  layer_services (desired st)
  = {[ pebble_service_name := built_service (app_environment st) (config_server_port st) ]}.
Proof. reflexivity. Qed.

Lemma built_service_replaces env port : is_merge (built_service env port) = false.
Proof.
  unfold is_merge, built_service. rewrite lookup_insert_eq.
  by apply bool_decide_eq_false_2.
Qed.

Lemma added_services_other st k :
  k ≠ pebble_service_name →
  plan_services (plan (added st)) !! k = plan_services (plan (container st)) !! k.
Proof.
  intros Hk. rewrite !plan_services_lookup. cbn [added layers].
  apply (stack_other layer_services services_section).
  by rewrite desired_services, lookup_singleton_ne.
Qed.

Lemma added_checks st : plan_checks (plan (added st)) = plan_checks (plan (container st)).
Proof.
  apply map_eq. intros k. rewrite !plan_checks_lookup. cbn [added layers].
  by apply (stack_other layer_checks checks_section).
Qed.

Lemma added_log_targets st :
  plan_log_targets (plan (added st)) = plan_log_targets (plan (container st)).
Proof.
  apply map_eq. intros k. rewrite !plan_log_targets_lookup. cbn [added layers].
  by apply (stack_other layer_log_targets log_targets_section).
Qed.

Lemma added_services_managed st :
  charm_layer_on_top st →
  plan_services (plan (added st)) !! pebble_service_name
  = Some (built_service (app_environment st) (config_server_port st)).
Proof.
  intros Htop. rewrite plan_services_lookup. cbn [added layers].
  apply (stack_top "fastapi_demo" (desired st)).
  - by rewrite desired_services, lookup_singleton_eq.
  - apply built_service_replaces.
  - exact Htop.
Qed.

Lemma missing_is_on_top st :
  plan_services (plan (container st)) !! pebble_service_name = None →
  charm_layer_on_top st.
Proof.
  rewrite plan_services_lookup. intros H.
  by apply defined_above_of_nowhere, undefined_everywhere.
Qed.

Lemma defined_above_add label name new ls :
  defined_above label name (add_to_stack label new ls) = defined_above label name ls.
Proof.
  induction ls as [|[lb old] ls IH].
  - cbn. by rewrite String.eqb_refl.
  - cbn [add_to_stack defined_above].
    destruct (String.eqb lb label) eqn:Hlb; cbn [defined_above]; by rewrite Hlb.
Qed.

Lemma added_on_top st : charm_layer_on_top st → charm_layer_on_top (with_container (added st) st).
Proof.
  unfold charm_layer_on_top. cbn [with_container container added layers].
  by rewrite defined_above_add.
Qed.

(** ** Idempotence of the reconciliation *)

Lemma default_nonempty_map {A} (m : gmap string A) : default ∅ (nonempty_map m) = m.
Proof.
  unfold nonempty_map. destruct (decide (m = ∅)) as [->|Hne].
  - by rewrite bool_decide_eq_true_2.
  - by rewrite bool_decide_eq_false_2.
Qed.

Lemma fetched_services_fmap st :
  fetched_services st = service_to_dict <$> plan_services (plan (container st)).
Proof. unfold fetched_services, Plan_to_dict. cbn [pd_services]. apply default_nonempty_map. Qed.

Lemma only_managed_lookup st name :
  only_managed st → name ≠ pebble_service_name →
  plan_services (plan (container st)) !! name = None.
Proof.
  unfold only_managed. intros Hm Hne.
  apply not_elem_of_dom. intros Hin. apply Hm in Hin. set_solver.
Qed.

(** Once the layer is added to a stack where nothing else defines services
    and nothing stands above the charm's entry, the fetched services
    subtree is the wanted one. *)
Lemma fetched_after_apply st :
  only_managed st → charm_layer_on_top st →
  fetched_services (with_container (added st) st) = wanted_services st.
Proof.
  intros Hm Htop. rewrite fetched_services_fmap. unfold wanted_services.
  cbn [with_container container]. f_equal. fold (desired st).
  apply map_eq. intros k. rewrite desired_services.
  destruct (decide (k = pebble_service_name)) as [->|Hk].
  - by rewrite added_services_managed, lookup_singleton_eq.
  - rewrite added_services_other, lookup_singleton_ne by done.
    by apply only_managed_lookup.
Qed.

Lemma needs_apply_settled st :
  reachable (container st) = true →
  only_managed st → charm_layer_on_top st →
  needs_apply (state_of (_update_layer_and_restart st)) = false.
Proof.
  intros Hr Hm Htop. unfold needs_apply, fetched_services, wanted_services.
  rewrite reconcile_container, reconcile_app_environment, reconcile_config, Hr.
  cbn [andb]. destruct (needs_apply st) eqn:Hn.
  - apply bool_decide_eq_false_2. intros Hne. apply Hne.
    exact (fetched_after_apply st Hm Htop).
  - exact Hn.
Qed.

(** C1, as stated, fails: with a foreign service in the plan the fetched
    services subtree never equals the wanted one, and the second of two
    consecutive reconciliations applies and restarts again. *)
Lemma reconcile_twice_sidecar_restarts_twice :
  let first := _update_layer_and_restart st_sidecar in
  let second := _update_layer_and_restart (state_of first) in
  fetched_services (state_of first) ≠ wanted_services (state_of first) ∧
  applies (calls_of second) = 1%nat ∧
  restarts (calls_of second) = 1%nat ∧
  applies (calls_of first ++ calls_of second) = 2%nat ∧
  restarts (calls_of first ++ calls_of second) = 2%nat.
Proof.
  cbv zeta. split; [|by vm_compute].
  apply (bool_decide_unpack _). by vm_compute.
Qed.

(** The same happens when the managed service is the only one in the plan
    but a layer added after the charm's defines it too: the charm's layer
    is combined where it stands, below, and the plan keeps showing the
    other definition. *)
Lemma reconcile_twice_shadowed_restarts_twice :
  let first := _update_layer_and_restart st_shadowed in
  let second := _update_layer_and_restart (state_of first) in
  only_managed st_shadowed ∧
  ¬ charm_layer_on_top st_shadowed ∧
  managed_field "command" (state_of first) = Some (VStr "other") ∧
  applies (calls_of first ++ calls_of second) = 2%nat ∧
  restarts (calls_of first ++ calls_of second) = 2%nat.
Proof.
  cbv zeta. split; [|split; [|by vm_compute]].
  - apply (bool_decide_unpack _). by vm_compute.
  - unfold charm_layer_on_top. by vm_compute.
Qed.

(** C1 (amended): when the plan holds no service other than the managed
    one and no layer above the charm's "fastapi_demo" layer defines the
    managed service, two consecutive reconciliations with nothing changed
    in between apply and restart at most once in total, and the second one
    finds the fetched services subtree equal to the wanted one and neither
    applies nor restarts. *)
Theorem reconcile_twice_at_most_once st :
  only_managed st →
  charm_layer_on_top st →
  let first := _update_layer_and_restart st in
  let second := _update_layer_and_restart (state_of first) in
  (applies (calls_of first ++ calls_of second) ≤ 1)%nat ∧
  (restarts (calls_of first ++ calls_of second) ≤ 1)%nat ∧
  applies (calls_of second) = 0%nat ∧
  restarts (calls_of second) = 0%nat ∧
  (reachable (container st) = true →
   fetched_services (state_of first) = wanted_services (state_of first)).
Proof.
  intros Hm Htop first second.
  assert (Hsecond : applies (calls_of second) = 0%nat
                    ∧ restarts (calls_of second) = 0%nat).
  { subst second. rewrite applies_reconcile, restarts_reconcile.
    subst first. rewrite reconcile_reachable_flag.
    destruct (reachable (container st)) eqn:Hr; [|done].
    by rewrite needs_apply_settled. }
  destruct Hsecond as [Ha Hs].
  rewrite applies_app, restarts_app, Ha, Hs.
  subst first. rewrite applies_reconcile, restarts_reconcile.
  repeat split.
  - destruct (_ && _); lia.
  - destruct (_ && _); lia.
  - intros Hr. pose proof (needs_apply_settled st Hr Hm Htop) as Hn.
    unfold needs_apply in Hn. apply bool_decide_eq_false_1 in Hn.
    match goal with
    | |- ?a = ?b => destruct (decide (a = b)) as [He|He]; [exact He | by destruct Hn]
    end.
Qed.

Lemma reconcile_twice_at_most_once_witness :
  only_managed st_stale ∧
  charm_layer_on_top st_stale ∧
  applies (calls_of (_update_layer_and_restart st_stale)) = 1%nat ∧
  applies (calls_of (_update_layer_and_restart
                       (state_of (_update_layer_and_restart st_stale)))) = 0%nat.
Proof.
  assert (Hm : only_managed st_stale).
  { apply (bool_decide_unpack _). vm_compute. exact I. }
  assert (Htop : charm_layer_on_top st_stale) by reflexivity.
  split; [exact Hm|]. split; [exact Htop|]. split; [vm_compute; reflexivity|].
  apply (reconcile_twice_at_most_once st_stale Hm Htop).
Defined.

(** ** What the reconciliation compares *)

(** C2: with the workload reachable, the reconciliation decides on the
    services subtrees alone.  If the fetched subtree equals the wanted one
    nothing is applied or restarted and the container stays as it is,
    whatever else the two documents hold; if they differ the layer is added
    once, under the label "fastapi_demo" with combine set, the managed
    service and no other is restarted, and the layers of the container are
    the old ones with the new layer added under that label.  Two containers
    whose plans have the same services lead to the same calls. *)
Theorem reconcile_compares_services_only st :
  reachable (container st) = true →
  let run := _update_layer_and_restart st in
  (fetched_services st = wanted_services st →
   pebble_writes (calls_of run) = [] ∧
   container (state_of run) = container st) ∧
  (fetched_services st ≠ wanted_services st →
   pebble_writes (calls_of run)
   = [CAddLayer "fastapi_demo" (desired st) true; CRestart pebble_service_name] ∧
   container (state_of run) = added st) ∧
  (∀ c, reachable c = true →
        plan_services (plan c) = plan_services (plan (container st)) →
        pebble_writes (calls_of (_update_layer_and_restart (with_container c st)))
        = pebble_writes (calls_of run)).
Proof.
  intros Hr run. subst run.
  rewrite pebble_writes_reconcile, reconcile_container, Hr. cbn [andb].
  unfold apply_calls, needs_apply.
  split; [|split].
  - intros Heq. rewrite bool_decide_eq_false_2; [done|]. by intros Hne.
  - intros Hne. by rewrite bool_decide_eq_true_2.
  - intros c Hc Hp. rewrite pebble_writes_reconcile.
    cbn [with_container container]. rewrite Hc.
    unfold apply_calls, needs_apply, desired.
    rewrite !fetched_services_fmap. unfold wanted_services.
    cbn [with_container container app_environment config_server_port].
    by rewrite Hp.
Qed.

Lemma reconcile_compares_services_only_witness :
  reachable (container st_stale) = true ∧
  fetched_services st_stale ≠ wanted_services st_stale ∧
  pebble_writes (calls_of (_update_layer_and_restart st_stale))
  = [CAddLayer "fastapi_demo" (desired st_stale) true; CRestart pebble_service_name].
Proof.
  assert (Hne : fetched_services st_stale ≠ wanted_services st_stale).
  { apply (bool_decide_unpack _). vm_compute. exact I. }
  split; [reflexivity|]. split; [exact Hne|].
  pose proof (reconcile_compares_services_only st_stale eq_refl) as H.
  cbv zeta in H. destruct H as (_ & H & _). apply (H Hne).
Defined.

(** ** Configuration changes *)

(** C3: with the port option at 22, the configuration handler only writes
    the Blocked status.  It makes no other call (nothing is applied or
    restarted), and the credentials, the container with its plan, the
    reported version and the layer built from the state are what they
    were. *)
Theorem config_changed_port_22_blocks st :
  config_server_port st = 22 →
  let run := _on_config_changed st in
  result_of run = Ok tt ∧
  unit_status (state_of run) = blocked_ssh ∧
  calls_of run = [CSetStatus blocked_ssh] ∧
  applies (calls_of run) = 0%nat ∧
  restarts (calls_of run) = 0%nat ∧
  app_environment (state_of run) = app_environment st ∧
  container (state_of run) = container st ∧
  workload_version (state_of run) = workload_version st ∧
  desired (state_of run) = desired st.
Proof.
  intros Hport run. subst run.
  cbv beta iota zeta delta [_on_config_changed bind get].
  rewrite Hport. cbn [Z.eqb Pos.eqb].
  repeat split.
Qed.

Lemma config_changed_port_22_blocks_witness :
  config_server_port st_ssh = 22 ∧
  unit_status (state_of (_on_config_changed st_ssh)) = blocked_ssh ∧
  calls_of (_on_config_changed st_ssh) = [CSetStatus blocked_ssh].
Proof.
  split; [reflexivity|].
  pose proof (config_changed_port_22_blocks st_ssh eq_refl) as H.
  cbv zeta in H. split; apply H.
Defined.

(** ** Credentials withdrawn *)

(** C4: the handler of the broken database relation empties the
    environment and writes the Waiting status, whatever the status and the
    reachability were.  Setting the status is its only call: the container
    is neither asked nor changed, so no reconciliation takes place. *)
Theorem database_relation_removed_resets st :
  let run := _on_database_relation_removed st in
  result_of run = Ok tt ∧
  app_environment (state_of run) = ∅ ∧
  unit_status (state_of run) = waiting_for_database ∧
  calls_of run = [CSetStatus waiting_for_database] ∧
  container (state_of run) = container st ∧
  workload_version (state_of run) = workload_version st.
Proof. repeat split. Qed.

(** ** Splitting the endpoint *)

(** ** Splitting the endpoint *)

Lemma length_split_colon s : length (split_colon s) = S (colons s).
Proof.
  induction s as [|c rest IH]; [reflexivity|].
  cbn [split_colon colons]. destruct (Ascii.eqb c ":").
  - cbn [length]. by rewrite IH.
  - destruct (split_colon rest); [discriminate IH | exact IH].
Qed.

Lemma split_colon_no_colon s : colons s = 0%nat → split_colon s = [s].
Proof.
  induction s as [|c rest IH]; [reflexivity|].
  cbn [split_colon colons]. destruct (Ascii.eqb c ":"); [discriminate|].
  intros H. by rewrite (IH H).
Qed.

Lemma split_colon_app host rest :
  colons host = 0%nat →
  split_colon (host ++ ":" ++ rest) = host :: split_colon rest.
Proof.
  induction host as [|c host IH]; [reflexivity|].
  simpl. destruct (Ascii.eqb c ":"); [discriminate|].
  intros H. by rewrite (IH H).
Qed.

Lemma colons_one s :
  colons s = 1%nat →
  ∃ host port, s = host ++ ":" ++ port ∧ colons host = 0%nat ∧ colons port = 0%nat.
Proof.
  induction s as [|c rest IH]; [discriminate|].
  cbn [colons]. destruct (Ascii.eqb_spec c ":") as [->|Hc].
  - intros [= H]. by exists "", rest.
  - intros H. destruct (IH H) as (host & port & -> & Hh & Hp).
    exists (String c host), port. repeat split; [|done].
    cbn [colons]. by destruct (Ascii.eqb_spec c ":").
Qed.

Lemma unpack2_split e st :
  colons e ≠ 1%nat → unpack2 (split_colon e) st = (Raise ValueError, st, []).
Proof.
  intros Hc. pose proof (length_split_colon e) as Hl.
  destruct (split_colon e) as [|a [|b [|c l]]]; try reflexivity.
  cbn [length] in Hl. congruence.
Qed.

Lemma database_created_run event host port st :
  split_colon (endpoints event) = [host; port] →
  _on_database_created event st
  = _update_layer_and_restart
      (with_app_environment
         (credentials host port (username event) (password event)) st).
Proof.
  intros Hs. cbv beta iota zeta delta [_on_database_created bind get put ret unpack2].
  rewrite Hs. cbn [fst snd app].
  by destruct (_update_layer_and_restart _) as [[r s] t].
Qed.

(** ** Credentials delivered *)

(** ** Credentials delivered *)


(** C8: an endpoint with no colon or with more than one makes the handler
    raise [ValueError] before it has written anything: the state is the one
    it started from and no call was made.  An endpoint with exactly one
    colon is split at it into host and port, which the handler stores
    before it goes on to the reconciliation. *)
Theorem database_created_endpoint_parse event st :
  (colons (endpoints event) ≠ 1%nat →
   _on_database_created event st = (Raise ValueError, st, [])) ∧
  (colons (endpoints event) = 1%nat →
   ∃ host port,
     endpoints event = host ++ ":" ++ port ∧
     colons host = 0%nat ∧ colons port = 0%nat ∧
     split_colon (endpoints event) = [host; port] ∧
     _on_database_created event st
     = _update_layer_and_restart
         (with_app_environment
            (credentials host port (username event) (password event)) st) ∧
     app_environment (state_of (_on_database_created event st))
     = credentials host port (username event) (password event)) ∧
  (∀ host port,
     colons host = 0%nat → colons port = 0%nat →
     split_colon (host ++ ":" ++ port) = [host; port]).
Proof.
  assert (Hsplit : ∀ host port, colons host = 0%nat → colons port = 0%nat →
                     split_colon (host ++ ":" ++ port) = [host; port]).
  { intros host port Hh Hp.
    by rewrite split_colon_app, (split_colon_no_colon port). }
  split; [|split; [|exact Hsplit]].
  - intros Hc. cbv beta iota zeta delta [_on_database_created bind].
    by rewrite unpack2_split.
  - intros Hc. destruct (colons_one _ Hc) as (host & port & He & Hh & Hp).
    exists host, port.
    assert (Hs : split_colon (endpoints event) = [host; port]).
    { rewrite He. by apply Hsplit. }
    rewrite (database_created_run event host port st Hs).
    rewrite reconcile_app_environment.
    by repeat split.
Qed.

Lemma database_created_endpoint_parse_witness :
  (colons (endpoints two_endpoints) ≠ 1%nat ∧
   _on_database_created two_endpoints st_stale = (Raise ValueError, st_stale, [])) ∧
  (colons (endpoints one_endpoint) = 1%nat ∧
   ∃ host port, split_colon (endpoints one_endpoint) = [host; port]) ∧
  (colons "10.0.0.5" = 0%nat ∧ colons "5432" = 0%nat ∧
   split_colon ("10.0.0.5" ++ ":" ++ "5432") = ["10.0.0.5"; "5432"]).
Proof.
  assert (H2 : colons (endpoints two_endpoints) ≠ 1%nat) by (vm_compute; lia).
  assert (H1 : colons (endpoints one_endpoint) = 1%nat) by reflexivity.
  split; [|split].
  - split; [exact H2|].
    apply (database_created_endpoint_parse two_endpoints st_stale), H2.
  - split; [exact H1|].
    destruct (database_created_endpoint_parse one_endpoint st_stale)
      as (_ & H & _).
    destruct (H H1) as (host & port & _ & _ & _ & Hs & _). by exists host, port.
  - split; [reflexivity|]. split; [reflexivity|].
    destruct (database_created_endpoint_parse one_endpoint st_stale)
      as (_ & _ & H).
    apply (H "10.0.0.5" "5432"); reflexivity.
Defined.

(** ** The layer that is built *)


Lemma config_changed_run st :
  config_server_port st ≠ 22 →
  _on_config_changed st = _update_layer_and_restart st.
Proof.
  intros Hp. cbv beta iota zeta delta [_on_config_changed bind get].
  apply Z.eqb_neq in Hp. rewrite Hp. cbn [app].
  by destruct (_update_layer_and_restart st) as [[r s] t].
Qed.



(** Every service the charm builds replaces the one of its name in the
    layers below. *)
Lemma service_override_desired env port :
  service_field "override" (pebble_layer_of env port) = Some (VStr "replace").
Proof.
  unfold service_field, pebble_layer_of. cbn [layer_services].
  rewrite lookup_singleton_eq. reflexivity.
Qed.








(** ** The workload out of reach *)

(** C6, as stated, fails: a reconciliation that finds the workload out of
    reach does not report a version at all, so a version reported earlier
    stays. *)
Lemma reconcile_unreachable_keeps_version :
  reachable_from
    (init 8000 up_container (HttpJson (JObject {[ "version" := JString "1.0.0" ]})))
    st_down ∧
  reachable (container st_down) = false ∧
  unit_status (state_of (emit demo_server_pebble_ready st_down)) = waiting_for_pebble ∧
  workload_version (state_of (emit demo_server_pebble_ready st_down)) = "1.0.0" ∧
  workload_version (state_of (emit demo_server_pebble_ready st_down)) ≠ "".
Proof.
  split.
  { eapply reach_step; [eapply reach_step; [apply reach_refl|]|].
    - apply (step_emit demo_server_pebble_ready).
    - apply step_container. }
  split; [reflexivity|]. split; [by vm_compute|]. split; [by vm_compute|].
  by vm_compute.
Qed.

(** C6 (amended): a reconciliation that finds the workload out of reach
    ends in the Waiting status and makes three calls only: it writes
    Maintenance, asks for reachability and writes Waiting.  Nothing is
    applied or restarted and no version is reported: the version reported
    before stays as it was, the empty string if none was.  The version
    property itself yields the empty string in that state. *)
Theorem reconcile_unreachable_waits st :
  reachable (container st) = false →
  let run := _update_layer_and_restart st in
  result_of run = Ok tt ∧
  unit_status (state_of run) = waiting_for_pebble ∧
  calls_of run = [CSetStatus maintenance; CCanConnect; CSetStatus waiting_for_pebble] ∧
  applies (calls_of run) = 0%nat ∧
  restarts (calls_of run) = 0%nat ∧
  workload_version (state_of run) = workload_version st ∧
  (workload_version st = "" → workload_version (state_of run) = "") ∧
  result_of (version (state_of run)) = Ok (JString "").
Proof.
  intros Hr run. subst run. rewrite reconcile_unreachable by done.
  rewrite version_run. unfold version_value, result_of, state_of, calls_of.
  cbn [fst snd with_status container workload_version unit_status].
  rewrite Hr. by repeat split.
Qed.

Lemma reconcile_unreachable_waits_witness :
  reachable (container st_down) = false ∧
  unit_status (state_of (_update_layer_and_restart st_down)) = waiting_for_pebble ∧
  workload_version (state_of (_update_layer_and_restart st_down))
  = workload_version st_down.
Proof.
  split; [reflexivity|].
  pose proof (reconcile_unreachable_waits st_down eq_refl) as H.
  cbv zeta in H. split; apply H.
Defined.

(** ** The version probe *)

Lemma has_service_applied st : has_service (applied st) = true.
Proof.
  unfold has_service. apply bool_decide_eq_true_2.
  unfold applied. destruct (needs_apply st) eqn:Hn.
  - cbn [with_container container]. rewrite plan_services_lookup.
    cbn [added layers].
    generalize (@None (gmap string value)).
    induction (layers (container st)) as [|[lb old] ls IH]; intros acc.
    + cbn. unfold entry_step. rewrite desired_services, lookup_singleton_eq. eauto.
    + cbn [add_to_stack]. destruct (String.eqb lb "fastapi_demo").
      * cbn. apply foldl_entry_is_Some. unfold entry_step.
        rewrite services_section, lookup_combine_section.
        rewrite desired_services, lookup_singleton_eq. eauto.
      * cbn. apply IH.
  - unfold needs_apply in Hn. apply bool_decide_eq_false_1 in Hn.
    assert (Heq : fetched_services st = wanted_services st).
    { destruct (decide (fetched_services st = wanted_services st)); [done|].
      by destruct Hn. }
    assert (Hw : is_Some (wanted_services st !! pebble_service_name)).
    { unfold wanted_services. fold (desired st).
      rewrite desired_services, map_fmap_singleton, lookup_singleton_eq. eauto. }
    rewrite <- Heq, fetched_services_fmap, lookup_fmap in Hw.
    by apply fmap_is_Some in Hw.
Qed.

Lemma version_value_applied st :
  reachable (container st) = true →
  version_value (applied st) = probe_value (version_endpoint st).
Proof.
  intros Hr. unfold version_value. rewrite has_service_applied.
  unfold applied. destruct (needs_apply st);
    cbn [with_container container added reachable version_endpoint]; by rewrite Hr.
Qed.

Lemma version_calls_applied st :
  reachable (container st) = true →
  version_calls (applied st)
  = [CCanConnect; CGetServices pebble_service_name; CHttpGet (version_url st) 10].
Proof.
  intros Hr. unfold version_calls. rewrite has_service_applied.
  unfold applied. destruct (needs_apply st);
    cbn [with_container container added reachable]; by rewrite Hr.
Qed.

Lemma probe_value_fails h : probe_fails h → probe_value h = JString "".
Proof.
  destruct h as [| | |[fields|]]; try done.
  cbn [probe_fails probe_value]. by intros ->.
Qed.

(** A body that is not JSON at all is swallowed: the reconciliation
    returns, reports the empty version and leaves the unit Active. *)
Lemma garbled_body_reaches_active :
  let run := _update_layer_and_restart st_garbled in
  result_of run = Ok tt ∧
  workload_version (state_of run) = "" ∧
  unit_status (state_of run) = ActiveStatus "" ∧
  CSetWorkloadVersion "" ∈ calls_of run.
Proof.
  cbv zeta. split; [by vm_compute|]. split; [by vm_compute|].
  split; [by vm_compute|].
  rewrite reconcile_calls. cbn [st_garbled init container up_container reachable].
  rewrite elem_of_app. right. unfold reconcile_suffix.
  rewrite version_value_applied by reflexivity. cbn. set_solver.
Qed.

(** C7, on the answer where the code and the claim part: the endpoint
    answers with a JSON object whose "version" is not a string.  Nothing
    fails inside [_request_version], so nothing is caught: [version]
    returns the value as it is, [set_workload_version] refuses it with
    [TypeError], and the reconciliation raises with the unit left in
    Maintenance and no version reported. *)
Theorem version_not_str_escapes st fields v :
  reachable (container st) = true →
  version_endpoint st = HttpJson (JObject fields) →
  fields !! "version" = Some v →
  (∀ s, v ≠ JString s) →
  let run := _update_layer_and_restart st in
  result_of (_request_version st) = Ok v ∧
  result_of run = Raise TypeError ∧
  unit_status (state_of run) = MaintenanceStatus "Assembling pod spec" ∧
  workload_version (state_of run) = workload_version st ∧
  applies (calls_of run) = (if needs_apply st then 1 else 0)%nat.
Proof.
  intros Hr He Hv Hns run. subst run.
  assert (Hval : version_value (applied st) = v).
  { rewrite version_value_applied by done. rewrite He. cbn [probe_value].
    by rewrite Hv. }
  split.
  { rewrite request_version_run, He, Hv. reflexivity. }
  rewrite applies_reconcile, Hr. cbn [andb].
  rewrite reconcile_reachable by done. rewrite Hval.
  destruct v as [s| | | |]; [by destruct (Hns s)| | | |];
    (repeat split; unfold applied; by destruct (needs_apply st)).
Qed.

Lemma version_not_str_escapes_witness :
  reachable (container st_numbered) = true ∧
  version_endpoint st_numbered = HttpJson (JObject {[ "version" := JNumber 2 ]}) ∧
  result_of (_update_layer_and_restart st_numbered) = Raise TypeError ∧
  unit_status (state_of (_update_layer_and_restart st_numbered))
  = MaintenanceStatus "Assembling pod spec".
Proof.
  split; [reflexivity|]. split; [reflexivity|].
  pose proof (version_not_str_escapes st_numbered {[ "version" := JNumber 2 ]}
                (JNumber 2) eq_refl eq_refl eq_refl
                (λ s H, ltac:(discriminate H))) as H.
  cbv zeta in H. destruct H as (_ & Hres & Hst & _). by split.
Defined.

(** ** The credentials are all there or not at all *)







(** ** The statuses a reconciliation writes *)

Lemma statuses_app t1 t2 : statuses (t1 ++ t2) = (statuses t1 ++ statuses t2)%list.
Proof. apply omap_app. Qed.

Lemma statuses_version_calls st : statuses (version_calls st) = [].
Proof.
  unfold version_calls.
  destruct (reachable (container st)), (has_service st); reflexivity.
Qed.

Lemma statuses_reconcile st :
  statuses (calls_of (_update_layer_and_restart st)) = reconcile_statuses st.
Proof.
  rewrite reconcile_calls. unfold reconcile_statuses, reports_str, reconcile_suffix.
  destruct (reachable (container st)); [|done].
  unfold reconcile_prefix, apply_calls.
  rewrite !statuses_app, statuses_version_calls.
  destruct (needs_apply st), (version_value (applied st)); reflexivity.
Qed.

(** C10: every reconciliation starts by writing the Maintenance status
    "Assembling pod spec" and only then asks whether the workload is in
    reach.  A reconciliation returns whenever the workload is out of reach
    or the version probe fails or yields a string.  One that returns writes
    exactly one more status, as its last call: Active if the workload is in
    reach (whether or not anything was applied), Waiting if not; that
    status is the one the unit ends with.  A reconciliation that raises has
    written Maintenance only, and leaves the unit there. *)
Theorem reconcile_passes_through_maintenance st :
  let run := _update_layer_and_restart st in
  let final := if reachable (container st)
               then ActiveStatus "" else waiting_for_pebble in
  take 2 (calls_of run)
  = [CSetStatus (MaintenanceStatus "Assembling pod spec"); CCanConnect] ∧
  (∃ later, statuses (calls_of run)
            = MaintenanceStatus "Assembling pod spec" :: later) ∧
  (reachable (container st) = false ∨
   (∃ s, probe_value (version_endpoint st) = JString s) →
   result_of run = Ok tt) ∧
  (result_of run = Ok tt →
   statuses (calls_of run) = [MaintenanceStatus "Assembling pod spec"; final] ∧
   last (calls_of run) = Some (CSetStatus final) ∧
   unit_status (state_of run) = final ∧
   final ≠ MaintenanceStatus "Assembling pod spec") ∧
  (∀ e, result_of run = Raise e →
        statuses (calls_of run) = [MaintenanceStatus "Assembling pod spec"] ∧
        unit_status (state_of run) = MaintenanceStatus "Assembling pod spec").
Proof.
  cbv zeta.
  rewrite statuses_reconcile, reconcile_result, reconcile_status, reconcile_calls.
  unfold reconcile_statuses.
  destruct (reachable (container st)) eqn:Hr.
  - cbn [andb]. unfold reconcile_prefix.
    split; [reflexivity|]. split; [destruct (reports_str st); eauto|].
    split.
    { intros [Hf|[s Hs]]; [discriminate Hf|].
      unfold reports_str. rewrite version_value_applied by done. by rewrite Hs. }
    unfold reconcile_suffix, reports_str.
    destruct (version_value (applied st)); cbn [negb];
      (split; [intros H; try discriminate H | intros e H; try discriminate H]);
      try done.
    split; [done|]. split; [|done]. rewrite !last_app. reflexivity.
  - cbn [andb]. split; [reflexivity|]. split; [eauto|]. split; [done|].
    split; [by intros _ | intros e H; discriminate H].
Qed.

Lemma reconcile_passes_through_maintenance_witness :
  result_of (_update_layer_and_restart st_fresh) = Ok tt ∧
  statuses (calls_of (_update_layer_and_restart st_fresh))
  = [MaintenanceStatus "Assembling pod spec"; ActiveStatus ""] ∧
  result_of (_update_layer_and_restart st_numbered) = Raise TypeError ∧
  unit_status (state_of (_update_layer_and_restart st_numbered))
  = MaintenanceStatus "Assembling pod spec".
Proof.
  assert (Hok : result_of (_update_layer_and_restart st_fresh) = Ok tt)
    by (by vm_compute).
  assert (Hraise : result_of (_update_layer_and_restart st_numbered) = Raise TypeError)
    by (by vm_compute).
  split; [exact Hok|]. split.
  - pose proof (reconcile_passes_through_maintenance st_fresh) as H.
    cbv zeta in H. destruct H as (_ & _ & _ & H & _). apply (H Hok).
  - split; [exact Hraise|].
    pose proof (reconcile_passes_through_maintenance st_numbered) as H.
    cbv zeta in H. destruct H as (_ & _ & _ & _ & H). apply (H TypeError Hraise).
Defined.

(** * Further properties of the handlers *)

(** ** Auxiliary facts *)

Lemma with_app_environment_id st : with_app_environment (app_environment st) st = st.
Proof. by destruct st. Qed.

Lemma wanted_services_for st :
  wanted_services st = services_for (app_environment st) (config_server_port st).
Proof. reflexivity. Qed.

Lemma services_for_other env port k :
  k ≠ pebble_service_name → services_for env port !! k = None.
Proof.
  intros Hk. unfold services_for, pebble_layer_of. cbn [layer_services].
  by rewrite map_fmap_singleton, lookup_singleton_ne.
Qed.

Lemma services_for_managed env port :
  is_Some (services_for env port !! pebble_service_name).
Proof.
  unfold services_for, pebble_layer_of. cbn [layer_services].
  rewrite map_fmap_singleton, lookup_singleton_eq. eauto.
Qed.

(** Every way an event can be handled. *)
Lemma emit_cases e st :
  emit e st = (Raise ValueError, st, []) ∨
  (config_server_port st = 22 ∧
   emit e st = (Ok tt, with_status blocked_ssh st, [CSetStatus blocked_ssh])) ∨
  emit e st = (Ok tt, with_status waiting_for_database (with_app_environment ∅ st),
               [CSetStatus waiting_for_database]) ∨
  ∃ env, emit e st = _update_layer_and_restart (with_app_environment env st).
Proof.
  assert (Hcreated : ∀ event,
    _on_database_created event st = (Raise ValueError, st, []) ∨
    ∃ env, _on_database_created event st
           = _update_layer_and_restart (with_app_environment env st)).
  { intros event. destruct (decide (colons (endpoints event) = 1%nat)) as [Hc|Hc].
    - right. destruct (colons_one _ Hc) as (host & port & He & Hh & Hp).
      eexists. apply (database_created_run event host port).
      rewrite He. by rewrite split_colon_app, (split_colon_no_colon port).
    - left. cbv beta iota zeta delta [_on_database_created bind].
      by rewrite unpack2_split. }
  destruct e as [event|event| | |]; cbn [emit].
  - destruct (Hcreated event) as [H|H]; [by left | by right; right; right].
  - destruct (Hcreated event) as [H|H]; [by left | by right; right; right].
  - right. right. left. reflexivity.
  - right. right. right. exists (app_environment st).
    by rewrite with_app_environment_id.
  - destruct (decide (config_server_port st = 22)) as [Hp|Hp].
    + right. left. split; [done|].
      cbv beta iota zeta delta [_on_config_changed bind get].
      rewrite Hp. reflexivity.
    + right. right. right. exists (app_environment st).
      rewrite with_app_environment_id. by apply config_changed_run.
Qed.

Lemma reconcile_fetched_managed st :
  reachable (container st) = true →
  charm_layer_on_top st →
  fetched_services (state_of (_update_layer_and_restart st)) !! pebble_service_name
  = wanted_services st !! pebble_service_name.
Proof.
  intros Hr Htop. rewrite fetched_services_fmap, reconcile_container, Hr. cbn [andb].
  destruct (needs_apply st) eqn:Hn.
  - rewrite lookup_fmap, added_services_managed by done.
    unfold wanted_services. fold (desired st).
    by rewrite desired_services, map_fmap_singleton, lookup_singleton_eq.
  - rewrite <- fetched_services_fmap.
    unfold needs_apply in Hn. apply bool_decide_eq_false_1 in Hn.
    destruct (decide (fetched_services st = wanted_services st)) as [->|Hne];
      [done | by destruct Hn].
Qed.

Lemma services_for_command env port :
  services_for env port !! pebble_service_name ≫= (λ d, d !! "command")
  = Some (VStr (command_for port)).
Proof.
  unfold services_for, pebble_layer_of. cbn [layer_services].
  rewrite map_fmap_singleton, lookup_singleton_eq.
  cbn [mbind option_bind]. unfold service_to_dict. rewrite lookup_omap.
  reflexivity.
Qed.

Lemma services_for_environment env port :
  services_for env port !! pebble_service_name ≫= (λ d, d !! "environment")
  = if bool_decide (env = ∅) then None else Some (VMap env).
Proof.
  unfold services_for, pebble_layer_of. cbn [layer_services].
  rewrite map_fmap_singleton, lookup_singleton_eq.
  cbn [mbind option_bind]. unfold service_to_dict. rewrite lookup_omap.
  rewrite !lookup_insert_ne by done. rewrite lookup_insert_eq.
  cbn [mbind option_bind truthy]. by destruct (bool_decide (env = ∅)).
Qed.

Lemma credentials_nonempty host port user pass :
  credentials host port user pass ≠ ∅.
Proof. unfold credentials. apply insert_non_empty. Qed.

Lemma http_gets_app t1 t2 : http_gets (t1 ++ t2) = (http_gets t1 ++ http_gets t2)%list.
Proof. apply filter_app. Qed.

Lemma http_gets_apply_calls st : http_gets (apply_calls st) = [].
Proof. unfold apply_calls. by destruct (needs_apply st). Qed.

Lemma str_inj n m : str n = str m → n = m.
Proof.
  assert (Hback : ∀ z, NilZero.int_of_string (str z) = Some (Z.to_int z)).
  { intros z. unfold str. apply NilZero.isi.
    - destruct z; cbn; [discriminate| |discriminate].
      intros [= H]. by apply DecimalPos.Unsigned.to_uint_nonnil in H.
    - destruct z; cbn; [discriminate|discriminate|].
      intros [= H]. by apply DecimalPos.Unsigned.to_uint_nonnil in H. }
  intros H. apply DecimalZ.to_int_inj.
  pose proof (Hback n) as Hn. rewrite H, Hback in Hn. by injection Hn.
Qed.

Lemma append_inj_l (p a b : string) : p ++ a = p ++ b → a = b.
Proof.
  induction p as [|c p IH]; [done|].
  change (String c (p ++ a) = String c (p ++ b) → a = b).
  intros [= H]. by apply IH.
Qed.

Lemma command_for_inj p q : command_for p = command_for q → p = q.
Proof. unfold command_for. intros H. by apply append_inj_l, str_inj in H. Qed.

(** The services subtree tells the environment and the port it was built
    from. *)
Lemma services_for_inj env port env' port' :
  services_for env port = services_for env' port' → env = env' ∧ port = port'.
Proof.
  intros H. split.
  - pose proof (services_for_environment env port) as He.
    rewrite H, services_for_environment in He.
    destruct (decide (env = ∅)) as [->|Hne], (decide (env' = ∅)) as [->|Hne'];
      rewrite ?bool_decide_eq_true_2, ?bool_decide_eq_false_2 in He by done;
      congruence.
  - pose proof (services_for_command env port) as Hc.
    rewrite H, services_for_command in Hc.
    apply command_for_inj. congruence.
Qed.

Lemma http_gets_suffix st : http_gets (reconcile_suffix st) = [].
Proof. unfold reconcile_suffix. by destruct (version_value (applied st)). Qed.

(** ** A port other than 22 *)

(** X1: with any port other than 22 the configuration handler is the
    reconciliation: same result, same state, same calls.  It returns
    whenever the workload is out of reach or the version probe fails or
    yields a string.  Whatever the status was before, Blocked included, a
    handler that returns leaves the unit Active when the workload is in
    reach and Waiting when it is not; a handler that raises leaves it in
    Maintenance; Blocked is left in either case. *)
Theorem config_changed_valid_port_reconciles st :
  config_server_port st ≠ 22 →
  let run := _on_config_changed st in
  run = _update_layer_and_restart st ∧
  (reachable (container st) = false ∨
   (∃ s, probe_value (version_endpoint st) = JString s) →
   result_of run = Ok tt) ∧
  (result_of run = Ok tt →
   unit_status (state_of run)
   = (if reachable (container st) then ActiveStatus "" else waiting_for_pebble)) ∧
  (∀ e, result_of run = Raise e → unit_status (state_of run) = maintenance) ∧
  unit_status (state_of run) ≠ blocked_ssh.
Proof.
  intros Hp run. subst run.
  rewrite (config_changed_run st Hp), reconcile_status, reconcile_result.
  split; [done|]. split.
  { destruct (reachable (container st)) eqn:Hr; [|done].
    intros [Hf|[s Hs]]; [discriminate Hf|].
    unfold reports_str. rewrite version_value_applied by done. by rewrite Hs. }
  destruct (reachable (container st)), (reports_str st); cbn [andb negb];
    repeat split; try done; try discriminate.
Qed.

Lemma config_changed_valid_port_reconciles_witness :
  config_server_port st_unblocked ≠ 22 ∧
  unit_status st_unblocked = blocked_ssh ∧
  unit_status (state_of (_on_config_changed st_unblocked)) = ActiveStatus "".
Proof.
  assert (Hp : config_server_port st_unblocked ≠ 22) by (vm_compute; discriminate).
  split; [exact Hp|]. split; [reflexivity|].
  pose proof (config_changed_valid_port_reconciles st_unblocked Hp) as H.
  cbv zeta in H. destruct H as (_ & Hok & H & _). apply H, Hok.
  right. by exists "".
Defined.

(** ** What a reconciliation leaves in the plan *)

(** X2: after a reconciliation with the workload in reach, and no layer
    above the charm's defining the managed service, the managed service as
    the plan shows it is the one the charm builds from its environment and
    port, whether or not a layer had to be added and whatever other
    services the plan holds. *)
Theorem reconcile_converges st :
  reachable (container st) = true →
  charm_layer_on_top st →
  let st' := state_of (_update_layer_and_restart st) in
  fetched_managed st' = wanted_services st !! pebble_service_name ∧
  wanted_services st' = wanted_services st ∧
  is_Some (fetched_managed st').
Proof.
  intros Hr Htop st'. subst st'. unfold fetched_managed.
  rewrite (reconcile_fetched_managed st Hr Htop).
  split; [done|]. split.
  - unfold wanted_services. by rewrite reconcile_app_environment, reconcile_config.
  - exact (services_for_managed (app_environment st) (config_server_port st)).
Qed.

Lemma reconcile_converges_witness :
  reachable (container st_sidecar) = true ∧
  charm_layer_on_top st_sidecar ∧
  fetched_managed (state_of (_update_layer_and_restart st_sidecar))
  = wanted_services st_sidecar !! pebble_service_name.
Proof.
  split; [reflexivity|]. split; [reflexivity|].
  pose proof (reconcile_converges st_sidecar eq_refl eq_refl) as H.
  cbv zeta in H. destruct H as (H & _). exact H.
Defined.

(** X3: no handler touches a service of another name, the checks or the
    log targets of the plan, nor the reachability of the container: for
    every event, they are after the handler what they were before. *)
Theorem handlers_keep_foreign_services e st :
  let st' := state_of (emit e st) in
  (∀ name, name ≠ pebble_service_name →
     plan_services (plan (container st')) !! name
     = plan_services (plan (container st)) !! name) ∧
  plan_checks (plan (container st')) = plan_checks (plan (container st)) ∧
  plan_log_targets (plan (container st')) = plan_log_targets (plan (container st)) ∧
  reachable (container st') = reachable (container st).
Proof.
  cbv zeta.
  destruct (emit_cases e st) as [->|[[_ ->]|[->|[env ->]]]]; try by repeat split.
  set (st1 := with_app_environment env st).
  change (container st) with (container st1).
  rewrite reconcile_container.
  destruct (reachable (container st1) && needs_apply st1); [|by repeat split].
  split; [|split; [|split]].
  - intros name Hne. by apply added_services_other.
  - apply added_checks.
  - apply added_log_targets.
  - reflexivity.
Qed.

Lemma handlers_keep_foreign_services_witness :
  "sidecar" ≠ pebble_service_name ∧
  plan_services (plan (container (state_of (emit demo_server_pebble_ready st_sidecar))))
    !! "sidecar"
  = plan_services (plan (container st_sidecar)) !! "sidecar".
Proof.
  split; [discriminate|].
  pose proof (handlers_keep_foreign_services demo_server_pebble_ready st_sidecar) as H.
  cbv zeta in H. destruct H as (H & _). apply H. discriminate.
Defined.

(** X4: when the plan has no service under the managed name, a fresh
    container for one, a reconciliation with the workload in reach adds the
    layer and restarts the service, once each, and the plan has the service
    afterwards. *)
Theorem missing_service_is_applied st :
  reachable (container st) = true →
  plan_services (plan (container st)) !! pebble_service_name = None →
  let run := _update_layer_and_restart st in
  pebble_writes (calls_of run)
  = [CAddLayer "fastapi_demo" (desired st) true; CRestart pebble_service_name] ∧
  plan_services (plan (container (state_of run))) !! pebble_service_name
  = layer_services (desired st) !! pebble_service_name ∧
  is_Some (plan_services (plan (container (state_of run))) !! pebble_service_name).
Proof.
  intros Hr Hnone run. subst run.
  assert (Hn : needs_apply st = true).
  { apply bool_decide_eq_true_2. intros Heq.
    destruct (services_for_managed (app_environment st) (config_server_port st))
      as [d Hd].
    rewrite <- wanted_services_for, <- Heq, fetched_services_fmap, lookup_fmap, Hnone
      in Hd. discriminate. }
  rewrite pebble_writes_reconcile, reconcile_container, Hr.
  unfold apply_calls. rewrite Hn. cbn [andb].
  split; [done|].
  rewrite added_services_managed by (by apply missing_is_on_top).
  rewrite desired_services, lookup_singleton_eq. split; [done | eauto].
Qed.

Lemma missing_service_is_applied_witness :
  reachable (container st_fresh) = true ∧
  plan_services (plan (container st_fresh)) !! pebble_service_name = None ∧
  applies (calls_of (_update_layer_and_restart st_fresh)) = 1%nat ∧
  pebble_writes (calls_of (_update_layer_and_restart st_fresh))
  = [CAddLayer "fastapi_demo" (desired st_fresh) true; CRestart pebble_service_name].
Proof.
  split; [reflexivity|]. split; [reflexivity|]. split; [by vm_compute|].
  pose proof (missing_service_is_applied st_fresh eq_refl eq_refl) as H.
  cbv zeta in H. destruct H as (H & _). exact H.
Defined.

(** ** The handlers as a whole *)

(** X5: whatever the event, a handler either changes nothing in the
    workload or adds the layer "fastapi_demo" with combine set and then
    restarts "fastapi-service", in that order and once each.  The layer
    added is the one built from the state the handler ends in.  No handler
    restarts without adding, or restarts another service. *)
Theorem handlers_apply_then_restart e st :
  let run := emit e st in
  pebble_writes (calls_of run) = [] ∨
  pebble_writes (calls_of run)
  = [CAddLayer "fastapi_demo" (desired (state_of run)) true;
     CRestart pebble_service_name].
Proof.
  cbv zeta.
  destruct (emit_cases e st) as [->|[[_ ->]|[->|[env ->]]]]; try by left.
  rewrite pebble_writes_reconcile, reconcile_desired. unfold apply_calls.
  destruct (reachable _); [|by left].
  destruct (needs_apply _); [by right | by left].
Qed.

(** X6: a handler that returns, whatever the event, leaves one of four
    statuses: Active, Waiting for Pebble, Waiting for the database relation
    or Blocked on port 22, never Maintenance; the last call it made wrote
    that status; and Active is only ever left with the workload in
    reach. *)
Theorem handlers_final_status e st :
  let run := emit e st in
  result_of run = Ok tt →
  unit_status (state_of run)
    ∈ [ActiveStatus ""; waiting_for_pebble; waiting_for_database; blocked_ssh] ∧
  last (calls_of run) = Some (CSetStatus (unit_status (state_of run))) ∧
  (unit_status (state_of run) = ActiveStatus "" → reachable (container st) = true).
Proof.
  cbv zeta.
  destruct (emit_cases e st) as [->|[[_ ->]|[->|[env ->]]]].
  - intros H. discriminate H.
  - intros _. unfold state_of, calls_of. cbn [fst snd with_status unit_status].
    split; [set_solver|]. split; [done|]. discriminate.
  - intros _. unfold state_of, calls_of. cbn [fst snd with_status unit_status].
    split; [set_solver|]. split; [done|]. discriminate.
  - rewrite reconcile_result, reconcile_status, reconcile_calls.
    cbn [with_app_environment container].
    destruct (reachable (container st)) eqn:Hr; cbn [andb].
    + unfold reports_str, reconcile_suffix.
      destruct (version_value _); cbn [negb]; intros H; try discriminate H.
      split; [set_solver|]. split; [|done]. rewrite !last_app. reflexivity.
    + intros _. split; [set_solver|]. split; [done|]. discriminate.
Qed.

Lemma handlers_final_status_witness :
  result_of (emit demo_server_pebble_ready st_fresh) = Ok tt ∧
  unit_status (state_of (emit demo_server_pebble_ready st_fresh)) = ActiveStatus "" ∧
  reachable (container st_fresh) = true.
Proof.
  assert (Hok : result_of (emit demo_server_pebble_ready st_fresh) = Ok tt)
    by (by vm_compute).
  assert (Hs : unit_status (state_of (emit demo_server_pebble_ready st_fresh))
               = ActiveStatus "") by (by vm_compute).
  split; [exact Hok|]. split; [exact Hs|].
  pose proof (handlers_final_status demo_server_pebble_ready st_fresh) as H.
  cbv zeta in H. destruct (H Hok) as (_ & _ & Hreach). exact (Hreach Hs).
Defined.

(** ** The version probe *)

(** X7: a reconciliation with the workload in reach asks the version
    endpoint exactly once, at http://localhost:<port>/version for the
    configured port and with a timeout of 10.  If the request, the decoding
    or the lookup of "version" fails, it reports the empty string and
    returns; if the answer holds a string under "version", it reports that
    string, returns and leaves the unit Active; if it holds anything else
    there, the report is refused: the reconciliation raises TypeError, the
    version is what it was and the unit stays in Maintenance. *)
Theorem reconcile_reports_probed_version st :
  reachable (container st) = true →
  let run := _update_layer_and_restart st in
  http_gets (calls_of run)
  = [CHttpGet ("http://localhost:" ++ str (config_server_port st) ++ "/version") 10] ∧
  (probe_fails (version_endpoint st) →
   result_of run = Ok tt ∧ workload_version (state_of run) = "") ∧
  (∀ fields s, version_endpoint st = HttpJson (JObject fields) →
               fields !! "version" = Some (JString s) →
               result_of run = Ok tt ∧
               workload_version (state_of run) = s ∧
               unit_status (state_of run) = ActiveStatus "" ∧
               CSetWorkloadVersion s ∈ calls_of run) ∧
  (∀ fields v, version_endpoint st = HttpJson (JObject fields) →
               fields !! "version" = Some v →
               (∀ s, v ≠ JString s) →
               result_of run = Raise TypeError ∧
               workload_version (state_of run) = workload_version st ∧
               unit_status (state_of run) = maintenance).
Proof.
  intros Hr run. subst run.
  split.
  { rewrite reconcile_calls, Hr. unfold reconcile_prefix.
    rewrite version_calls_applied by done.
    rewrite !http_gets_app, http_gets_apply_calls, http_gets_suffix. reflexivity. }
  rewrite reconcile_reachable by done.
  rewrite version_value_applied by done.
  split; [|split].
  - intros Hf. by rewrite (probe_value_fails _ Hf).
  - intros fields s -> Hv. cbn [probe_value]. rewrite Hv. cbn [from_option id].
    unfold result_of, state_of, calls_of.
    cbn [fst snd with_status with_workload_version workload_version unit_status].
    repeat split. rewrite elem_of_app. right. set_solver.
  - intros fields v -> Hv Hns. cbn [probe_value]. rewrite Hv. cbn [from_option id].
    destruct v as [s| | | |]; [by destruct (Hns s)| | | |];
      (repeat split; unfold applied; by destruct (needs_apply st)).
Qed.

Lemma reconcile_reports_probed_version_witness :
  reachable (container st_fresh) = true ∧
  http_gets (calls_of (_update_layer_and_restart st_fresh))
  = [CHttpGet "http://localhost:8000/version" 10] ∧
  workload_version (state_of (_update_layer_and_restart st_fresh)) = "1.0.0".
Proof.
  split; [reflexivity|].
  pose proof (reconcile_reports_probed_version st_fresh eq_refl) as H.
  cbv zeta in H. destruct H as (Hg & _ & Hv & _).
  split; [exact Hg|].
  destruct (Hv {[ "version" := JString "1.0.0" ]} "1.0.0" eq_refl eq_refl)
    as (_ & Hw & _).
  exact Hw.
Defined.

(** X8: the [version] property asks the endpoint only when the container
    is in reach and the plan has the managed service.  Out of reach it
    stops after [can_connect]; with the service missing it stops after
    [get_services]; both times it returns the empty string and leaves the
    state alone. *)
Theorem version_skips_probe st :
  (reachable (container st) = false →
   version st = (Ok (JString ""), st, [CCanConnect])) ∧
  (reachable (container st) = true →
   plan_services (plan (container st)) !! pebble_service_name = None →
   version st = (Ok (JString ""), st, [CCanConnect; CGetServices pebble_service_name])) ∧
  (http_gets (calls_of (version st)) ≠ [] →
   reachable (container st) = true ∧
   is_Some (plan_services (plan (container st)) !! pebble_service_name)).
Proof.
  rewrite version_run. unfold version_value, version_calls, has_service.
  split; [|split].
  - by intros ->.
  - intros -> Hn. rewrite Hn.
    by rewrite (bool_decide_eq_false_2 (is_Some None)) by (intros [? ?]; discriminate).
  - unfold calls_of. cbn [snd]. destruct (reachable (container st)); [|done].
    destruct (decide (is_Some (plan_services (plan (container st))
                                 !! pebble_service_name))) as [Hs|Hs].
    + done.
    + by rewrite (bool_decide_eq_false_2 _ Hs).
Qed.

Lemma version_skips_probe_witness :
  reachable (container st_down) = false ∧
  version st_down = (Ok (JString ""), st_down, [CCanConnect]).
Proof.
  split; [reflexivity|].
  destruct (version_skips_probe st_down) as (H & _). exact (H eq_refl).
Defined.

(** ** Port 22 outside the configuration handler *)

(** X9: only the configuration handler looks at the port.  With port 22
    configured, the workload in reach and no layer above the charm's
    defining the managed service, the pebble-ready event reconciles as for
    any other port: the managed service of the plan ends with the command
    for port 22, the unit is not left Blocked, also when it was Blocked
    before, and it is Active when the handler returns. *)
Theorem pebble_ready_ignores_reserved_port st :
  config_server_port st = 22 →
  reachable (container st) = true →
  charm_layer_on_top st →
  let run := emit demo_server_pebble_ready st in
  run = _update_layer_and_restart st ∧
  managed_field "command" (state_of run)
  = Some (VStr "uvicorn api_demo_server.app:app --host=0.0.0.0 --port=22") ∧
  (result_of run = Ok tt → unit_status (state_of run) = ActiveStatus "") ∧
  unit_status (state_of run) ≠ blocked_ssh.
Proof.
  intros Hp Hr Htop run. subst run. cbn [emit].
  split; [done|]. split.
  - unfold managed_field, fetched_managed.
    rewrite (reconcile_fetched_managed st Hr Htop), wanted_services_for, Hp.
    exact (services_for_command (app_environment st) 22).
  - rewrite reconcile_result, reconcile_status, Hr. cbn [andb].
    destruct (reports_str st); cbn [negb]; split; try done.
Qed.

Lemma pebble_ready_ignores_reserved_port_witness :
  config_server_port st_ssh = 22 ∧
  reachable (container st_ssh) = true ∧
  unit_status (state_of (emit config_changed st_ssh)) = blocked_ssh ∧
  unit_status (state_of (emit demo_server_pebble_ready
                           (state_of (emit config_changed st_ssh))))
  = ActiveStatus "".
Proof.
  split; [reflexivity|]. split; [reflexivity|]. split; [reflexivity|].
  pose proof (pebble_ready_ignores_reserved_port
                (state_of (emit config_changed st_ssh)) eq_refl eq_refl eq_refl) as H.
  cbv zeta in H. destruct H as (_ & _ & H & _). apply H. by vm_compute.
Defined.

(** ** The credentials and the plan *)

(** X10: when credentials arrive with a well-formed endpoint, the workload
    is in reach and no layer above the charm's defines the managed service,
    the managed service of the plan ends with the four credential variables
    as its environment. *)
Theorem delivered_credentials_reach_the_plan event host port st :
  endpoints event = host ++ ":" ++ port →
  colons host = 0%nat → colons port = 0%nat →
  reachable (container st) = true →
  charm_layer_on_top st →
  managed_field "environment" (state_of (_on_database_created event st))
  = Some (VMap (credentials host port (username event) (password event))).
Proof.
  intros He Hh Hp Hr Htop.
  rewrite (database_created_run event host port st)
    by (rewrite He; by rewrite split_colon_app, (split_colon_no_colon port)).
  unfold managed_field, fetched_managed.
  rewrite reconcile_fetched_managed by (exact Hr || exact Htop).
  rewrite wanted_services_for. cbn [with_app_environment app_environment].
  rewrite services_for_environment.
  by rewrite bool_decide_eq_false_2 by apply credentials_nonempty.
Qed.

Lemma delivered_credentials_reach_the_plan_witness :
  endpoints one_endpoint = "10.0.0.5" ++ ":" ++ "5432" ∧
  reachable (container st_fresh) = true ∧
  charm_layer_on_top st_fresh ∧
  managed_field "environment" (state_of (_on_database_created one_endpoint st_fresh))
  = Some (VMap (credentials "10.0.0.5" "5432" "alice" "s3cr3t")).
Proof.
  split; [reflexivity|]. split; [reflexivity|]. split; [reflexivity|].
  exact (delivered_credentials_reach_the_plan one_endpoint "10.0.0.5" "5432" st_fresh
           eq_refl eq_refl eq_refl eq_refl eq_refl).
Defined.

(** X11: withdrawing the credentials does not reach the workload at once:
    the container is what it was when the handler returns.  If the plan
    still showed an environment for the managed service, the next
    reconciliation with the workload in reach adds the layer built without
    credentials and restarts the service; and with no layer above the
    charm's defining the managed service, that reconciliation leaves the
    managed service of the plan without environment. *)
Theorem revoked_credentials_leave_at_next_reconcile st :
  reachable (container st) = true →
  let st1 := state_of (_on_database_relation_removed st) in
  let run := _update_layer_and_restart st1 in
  container st1 = container st ∧
  (is_Some (managed_field "environment" st) →
   pebble_writes (calls_of run)
   = [CAddLayer "fastapi_demo" (pebble_layer_of ∅ (config_server_port st)) true;
      CRestart pebble_service_name]) ∧
  (charm_layer_on_top st → managed_field "environment" (state_of run) = None).
Proof.
  intros Hr st1 run.
  assert (Hr1 : reachable (container st1) = true) by exact Hr.
  split; [reflexivity|]. split.
  - intros Hsome. subst run. rewrite pebble_writes_reconcile, Hr1.
    unfold apply_calls.
    assert (Hn : needs_apply st1 = true).
    { apply bool_decide_eq_true_2. intros Heq.
      assert (Hf : fetched_services st1 = fetched_services st) by reflexivity.
      unfold managed_field, fetched_managed in Hsome.
      rewrite <- Hf, Heq, wanted_services_for, services_for_environment in Hsome.
      rewrite bool_decide_eq_true_2 in Hsome by reflexivity.
      by destruct Hsome. }
    by rewrite Hn.
  - intros Htop. subst run. unfold managed_field, fetched_managed.
    rewrite (reconcile_fetched_managed st1 Hr1 Htop), wanted_services_for.
    rewrite services_for_environment. by rewrite bool_decide_eq_true_2.
Qed.

Lemma revoked_credentials_leave_at_next_reconcile_witness :
  reachable (container st_ssh) = true ∧
  charm_layer_on_top st_ssh ∧
  managed_field "environment"
    (state_of (_update_layer_and_restart
                 (state_of (_on_database_relation_removed st_ssh)))) = None.
Proof.
  split; [reflexivity|]. split; [reflexivity|].
  pose proof (revoked_credentials_leave_at_next_reconcile st_ssh eq_refl) as H.
  cbv zeta in H. destruct H as (_ & _ & H). exact (H eq_refl).
Defined.

(** X12: credentials delivered a second time, unchanged, do not restart the
    service: with no other service in the plan and no layer above the
    charm's defining the managed service, handling endpoints-changed right
    after database-created for the same event, by the same charm object,
    adds no layer, restarts nothing and leaves the container as it is. *)
Theorem repeated_credentials_do_not_restart event host port st :
  endpoints event = host ++ ":" ++ port →
  colons host = 0%nat → colons port = 0%nat →
  only_managed st →
  charm_layer_on_top st →
  let st1 := state_of (emit (database_created event) st) in
  pebble_writes (calls_of (emit (endpoints_changed event) st1)) = [] ∧
  container (state_of (emit (endpoints_changed event) st1)) = container st1.
Proof.
  intros He Hh Hp Hm Htop st1.
  assert (Hs : split_colon (endpoints event) = [host; port])
    by (rewrite He; by rewrite split_colon_app, (split_colon_no_colon port)).
  set (env := credentials host port (username event) (password event)).
  assert (H1 : st1 = state_of (_update_layer_and_restart (with_app_environment env st))).
  { subst st1. cbn [emit]. by rewrite (database_created_run event host port st Hs). }
  assert (Henv : app_environment st1 = env)
    by (rewrite H1; by rewrite reconcile_app_environment).
  cbn [emit]. rewrite (database_created_run event host port st1 Hs).
  fold env. rewrite <- Henv, with_app_environment_id.
  rewrite pebble_writes_reconcile, reconcile_container.
  destruct (reachable (container st1)) eqn:Hr; [|done].
  assert (Hn : needs_apply st1 = false).
  { rewrite H1. apply needs_apply_settled.
    - rewrite H1, reconcile_reachable_flag in Hr. exact Hr.
    - exact Hm.
    - exact Htop. }
  unfold apply_calls. by rewrite Hn.
Qed.

Lemma repeated_credentials_do_not_restart_witness :
  endpoints one_endpoint = "10.0.0.5" ++ ":" ++ "5432" ∧
  only_managed st_fresh ∧
  charm_layer_on_top st_fresh ∧
  applies (calls_of (emit (database_created one_endpoint) st_fresh)) = 1%nat ∧
  pebble_writes
    (calls_of (emit (endpoints_changed one_endpoint)
                 (state_of (emit (database_created one_endpoint) st_fresh)))) = [].
Proof.
  assert (Hm : only_managed st_fresh).
  { apply (bool_decide_unpack _). vm_compute. exact I. }
  split; [reflexivity|]. split; [exact Hm|]. split; [reflexivity|].
  split; [by vm_compute|].
  pose proof (repeated_credentials_do_not_restart one_endpoint "10.0.0.5" "5432"
                st_fresh eq_refl eq_refl eq_refl Hm eq_refl) as H.
  cbv zeta in H. destruct H as (H & _). exact H.
Defined.

(** ** When the workload is restarted *)

(** X13: if the services of the plan are those built for some environment
    and port, a reconciliation with the workload in reach leaves the
    workload alone when the charm still holds that environment and that
    port, and adds the layer and restarts the service as soon as either
    differs: no change of the credentials or of the port goes unnoticed. *)
Theorem reconcile_restarts_iff_changed st env0 port0 :
  reachable (container st) = true →
  fetched_services st = services_for env0 port0 →
  let run := _update_layer_and_restart st in
  (app_environment st = env0 ∧ config_server_port st = port0 →
   pebble_writes (calls_of run) = []) ∧
  (¬ (app_environment st = env0 ∧ config_server_port st = port0) →
   pebble_writes (calls_of run)
   = [CAddLayer "fastapi_demo" (desired st) true; CRestart pebble_service_name]).
Proof.
  intros Hr Hf run. subst run. rewrite pebble_writes_reconcile, Hr.
  unfold apply_calls, needs_apply. rewrite Hf, wanted_services_for.
  split.
  - intros [-> ->]. rewrite bool_decide_eq_false_2; [done|]. by intros Hne.
  - intros Hne. rewrite bool_decide_eq_true_2; [done|].
    intros Heq. apply Hne. symmetry in Heq.
    by apply services_for_inj in Heq.
Qed.

Lemma reconcile_restarts_iff_changed_witness :
  reachable (container st_stale) = true ∧
  fetched_services st_stale = services_for ∅ 8000 ∧
  ¬ (app_environment st_stale = ∅ ∧ config_server_port st_stale = 8000) ∧
  pebble_writes (calls_of (_update_layer_and_restart st_stale))
  = [CAddLayer "fastapi_demo" (desired st_stale) true; CRestart pebble_service_name].
Proof.
  assert (Hf : fetched_services st_stale = services_for ∅ 8000).
  { apply (bool_decide_unpack _). vm_compute. exact I. }
  assert (Hne : ¬ (app_environment st_stale = ∅ ∧ config_server_port st_stale = 8000)).
  { intros [_ H]. vm_compute in H. discriminate. }
  split; [reflexivity|]. split; [exact Hf|]. split; [exact Hne|].
  pose proof (reconcile_restarts_iff_changed st_stale ∅ 8000 eq_refl Hf) as H.
  cbv zeta in H. destruct H as (_ & H). exact (H Hne).
Defined.

(** X14: with the workload in reach, a reconciliation leaves the workload
    alone exactly when the plan shows the managed service as the charm
    builds it and shows no service of another name.  A single foreign
    service in the plan makes every reconciliation add the layer and
    restart. *)
Theorem apply_skipped_iff st :
  reachable (container st) = true →
  let run := _update_layer_and_restart st in
  (pebble_writes (calls_of run) = [] ↔
   fetched_managed st = wanted_services st !! pebble_service_name ∧
   ∀ name, name ≠ pebble_service_name → fetched_services st !! name = None) ∧
  (∀ name, name ≠ pebble_service_name →
     is_Some (fetched_services st !! name) →
     pebble_writes (calls_of run)
     = [CAddLayer "fastapi_demo" (desired st) true; CRestart pebble_service_name]).
Proof.
  intros Hr run. subst run. rewrite pebble_writes_reconcile, Hr.
  unfold apply_calls, needs_apply, fetched_managed.
  assert (Hother : fetched_services st = wanted_services st →
                   ∀ name, name ≠ pebble_service_name →
                           fetched_services st !! name = None).
  { intros -> name Hne. rewrite wanted_services_for. by apply services_for_other. }
  split; [split|].
  - intros Hw. destruct (decide (fetched_services st = wanted_services st)) as [Heq|Hne].
    + split; [by rewrite Heq | by apply Hother].
    + by rewrite bool_decide_eq_true_2 in Hw.
  - intros [Hm Ho]. rewrite bool_decide_eq_false_2; [done|].
    intros Hne. apply Hne, map_eq. intros k.
    destruct (decide (k = pebble_service_name)) as [->|Hk]; [exact Hm|].
    rewrite (Ho k Hk), wanted_services_for. symmetry. by apply services_for_other.
  - intros name Hne [d Hd]. rewrite bool_decide_eq_true_2; [done|].
    intros Heq. rewrite (Hother Heq name Hne) in Hd. discriminate.
Qed.

Lemma apply_skipped_iff_witness :
  reachable (container st_sidecar) = true ∧
  is_Some (fetched_services st_sidecar !! "sidecar") ∧
  pebble_writes (calls_of (_update_layer_and_restart st_sidecar))
  = [CAddLayer "fastapi_demo" (desired st_sidecar) true; CRestart pebble_service_name].
Proof.
  assert (Hs : is_Some (fetched_services st_sidecar !! "sidecar")).
  { apply (bool_decide_unpack _). vm_compute. exact I. }
  split; [reflexivity|]. split; [exact Hs|].
  pose proof (apply_skipped_iff st_sidecar eq_refl) as H.
  cbv zeta in H. destruct H as (_ & H).
  apply (H "sidecar"); [discriminate | exact Hs].
Defined.
